(** * AiQuiz: the question provider route and the quiz controller

    A shallow embedding of
    - [src/app/api/generate-questions/route.ts] and its two sibling
      variants (the subject-keyed mock-data variant and the two-stage
      OpenAI + Gemini variant), and
    - the [Quiz] component of [src/app/_ui/components/Quiz.tsx].

    Conventions.  A JavaScript string is a Rocq [string] holding the UTF-8
    bytes of the text.  A thrown exception that an enclosing [catch]
    absorbs is [None]; the error value itself is only logged by the source
    and is not kept.  Numbers that the handlers compute with are integers
    ([Z]); a JSON number in parsed text is the exact decimal [m * 10^e]. *)

From Stdlib Require Import String Ascii ZArith List Bool Lia DecimalString.
Import ListNotations.
Open Scope string_scope.
Open Scope Z_scope.

#[local] Set Warnings "-register-all".

(** ** JavaScript values that JSON can denote *)

Inductive JSValue : Type :=
| JNull
| JBool (b : bool)
| JNum (m e : Z)
| JStr (s : string)
| JArr (items : list JSValue)
| JObj (fields : list (string * JSValue)).

(** ToBoolean. *)
Definition truthy (v : JSValue) : bool :=
  match v with
  | JNull => false
  | JBool b => b
  | JNum m _ => negb (m =? 0)
  | JStr s => negb (s =? "")%string
  | JArr _ | JObj _ => true
  end.

(** Own property of an object built by JSON.parse: for a repeated key the
    last occurrence is the one that stays. *)
Fixpoint own_property (fields : list (string * JSValue)) (k : string)
  : option JSValue :=
  match fields with
  | [] => None
  | (k', v) :: rest =>
      match own_property rest k with
      | Some w => Some w
      | None => if (k' =? k)%string then Some v else None
      end
  end.

(** ** String helpers *)

Definition bytes (l : list nat) : string :=
  fold_right (fun n s => String (ascii_of_nat n) s) "" l.

Definition dquote : string := bytes [34%nat].

(** [String.prototype.replace(/```json|```/g, '')]: a left-to-right scan
    that drops "```json" where it matches, else "```" where it matches,
    and keeps the character otherwise.  [skip] counts the characters of a
    match that are still to be dropped. *)
Fixpoint replace_fences (skip : nat) (s : string) : string :=
  match s with
  | "" => ""
  | String c rest =>
      match skip with
      | S k => replace_fences k rest
      | O =>
          if prefix "```json" s then replace_fences 6 rest
          else if prefix "```" s then replace_fences 2 rest
          else String c (replace_fences 0 rest)
      end
  end.

(** WhiteSpace and LineTerminator of ECMAScript, as UTF-8 byte sequences:
    TAB LF VT FF CR SP, NBSP, U+1680, U+2000..U+200A, U+2028, U+2029,
    U+202F, U+205F, U+3000, U+FEFF. *)
Definition js_whitespace : list string :=
  map bytes
    [ [9]; [10]; [11]; [12]; [13]; [32]; [194; 160]; [225; 154; 128];
      [226; 128; 128]; [226; 128; 129]; [226; 128; 130]; [226; 128; 131];
      [226; 128; 132]; [226; 128; 133]; [226; 128; 134]; [226; 128; 135];
      [226; 128; 136]; [226; 128; 137]; [226; 128; 138];
      [226; 128; 168]; [226; 128; 169]; [226; 128; 175]; [226; 129; 159];
      [227; 128; 128]; [239; 187; 191] ]%nat.

(** Byte length of the white-space character [s] starts with, 0 if none. *)
Definition ws_len (s : string) : nat :=
  match find (fun w => prefix w s) js_whitespace with
  | Some w => String.length w
  | None => O
  end.

Fixpoint trimStart_from (skip : nat) (s : string) : string :=
  match s with
  | "" => ""
  | String _ rest =>
      match skip with
      | S k => trimStart_from k rest
      | O => match ws_len s with
             | O => s
             | S k => trimStart_from k rest
             end
      end
  end.

Fixpoint all_whitespace (skip : nat) (s : string) : bool :=
  match s with
  | "" => true
  | String _ rest =>
      match skip with
      | S k => all_whitespace k rest
      | O => match ws_len s with
             | O => false
             | S k => all_whitespace k rest
             end
      end
  end.

Fixpoint trimEnd (s : string) : string :=
  match s with
  | "" => ""
  | String c rest => if all_whitespace 0 s then "" else String c (trimEnd rest)
  end.

(** [String.prototype.trim]. *)
Definition trim (s : string) : string := trimEnd (trimStart_from 0 s).

(** ** JSON.parse

    The handlers call the built-in [JSON.parse].  They are defined over an
    arbitrary [JSON_parse : string -> option JSValue] ([None]: SyntaxError);
    [Json.parse] below is the JSON grammar of ECMA-404, used wherever a
    concrete text has to be parsed.  It is a character automaton (the lexer)
    followed by a push-down automaton over tokens, one step per token, so it
    is total without fuel. *)

Module Json.

Inductive token : Type :=
| TLBrace | TRBrace | TLBracket | TRBracket | TColon | TComma
| TString (s : string)
| TNumber (m e : Z)
| TTrue | TFalse | TNull.

(** A character of a string literal: a raw byte, or a [\uXXXX] code unit. *)
Inductive str_item : Type :=
| Raw (c : ascii)
| Unit (u : Z).

Inductive num_state : Type :=
| NSign | NZero | NInt | NPoint | NFrac | NExpMark | NExpSign | NExp.

Inductive lex_state : Type :=
| LIdle
| LLit (rest : string) (t : token)
| LStr (acc : list str_item)
| LEsc (acc : list str_item)
| LHex (acc : list str_item) (k : nat) (v : Z)
| LNum (ns : num_state) (neg : bool) (mant scale : Z) (eneg : bool) (ex : Z).

Definition code (c : ascii) : Z := Z.of_N (N_of_ascii c).
Definition chr (n : Z) : ascii := ascii_of_N (Z.to_N n).

Definition is_digit (c : ascii) : bool := (48 <=? code c) && (code c <=? 57).
Definition digit_val (c : ascii) : Z := code c - 48.

Definition hex_val (c : ascii) : option Z :=
  let n := code c in
  if (48 <=? n) && (n <=? 57) then Some (n - 48)
  else if (65 <=? n) && (n <=? 70) then Some (n - 55)
  else if (97 <=? n) && (n <=? 102) then Some (n - 87)
  else None.

(** UTF-8 encoding of a code point (a lone surrogate is encoded like any
    other three-byte code point). *)
Definition utf8 (cp : Z) : string :=
  if cp <? 128 then String (chr cp) ""
  else if cp <? 2048 then
    String (chr (192 + cp / 64)) (String (chr (128 + cp mod 64)) "")
  else if cp <? 65536 then
    String (chr (224 + cp / 4096))
      (String (chr (128 + (cp / 64) mod 64))
         (String (chr (128 + cp mod 64)) ""))
  else
    String (chr (240 + cp / 262144))
      (String (chr (128 + (cp / 4096) mod 64))
         (String (chr (128 + (cp / 64) mod 64))
            (String (chr (128 + cp mod 64)) ""))).

Definition is_high_surrogate (u : Z) : bool := (55296 <=? u) && (u <=? 56319).
Definition is_low_surrogate (u : Z) : bool := (56320 <=? u) && (u <=? 57343).

Fixpoint encode_items (l : list str_item) : string :=
  match l with
  | [] => ""
  | Raw c :: rest => String c (encode_items rest)
  | Unit u :: rest =>
      match rest with
      | Unit lo :: rest' =>
          if is_high_surrogate u && is_low_surrogate lo
          then utf8 (65536 + (u - 55296) * 1024 + (lo - 56320))
               ++ encode_items rest'
          else utf8 u ++ encode_items rest
      | _ => utf8 u ++ encode_items rest
      end
  end.

Definition number_token (neg : bool) (mant scale : Z) (eneg : bool) (ex : Z)
  : token :=
  TNumber (if neg then - mant else mant) ((if eneg then - ex else ex) - scale).

(** A character met between tokens. *)
Definition lex_idle (c : ascii) : option (lex_state * list token) :=
  let n := code c in
  if (n =? 32) || (n =? 9) || (n =? 10) || (n =? 13) then Some (LIdle, [])
  else if n =? 123 then Some (LIdle, [TLBrace])
  else if n =? 125 then Some (LIdle, [TRBrace])
  else if n =? 91 then Some (LIdle, [TLBracket])
  else if n =? 93 then Some (LIdle, [TRBracket])
  else if n =? 58 then Some (LIdle, [TColon])
  else if n =? 44 then Some (LIdle, [TComma])
  else if n =? 34 then Some (LStr [], [])
  else if n =? 116 then Some (LLit "rue" TTrue, [])
  else if n =? 102 then Some (LLit "alse" TFalse, [])
  else if n =? 110 then Some (LLit "ull" TNull, [])
  else if n =? 45 then Some (LNum NSign true 0 0 false 0, [])
  else if n =? 48 then Some (LNum NZero false 0 0 false 0, [])
  else if is_digit c then Some (LNum NInt false (digit_val c) 0 false 0, [])
  else None.

(** The number ends before [c]: emit it and read [c] between tokens. *)
Definition end_number (neg : bool) (mant scale : Z) (eneg : bool) (ex : Z)
  (c : ascii) : option (lex_state * list token) :=
  match lex_idle c with
  | Some (st, toks) => Some (st, number_token neg mant scale eneg ex :: toks)
  | None => None
  end.

Definition is_exp_mark (c : ascii) : bool := (code c =? 101) || (code c =? 69).

Definition lex_number (ns : num_state) (neg : bool) (mant scale : Z)
  (eneg : bool) (ex : Z) (c : ascii) : option (lex_state * list token) :=
  match ns with
  | NSign =>
      if code c =? 48 then Some (LNum NZero neg 0 0 false 0, [])
      else if is_digit c then Some (LNum NInt neg (digit_val c) 0 false 0, [])
      else None
  | NZero =>
      if code c =? 46 then Some (LNum NPoint neg mant scale eneg ex, [])
      else if is_exp_mark c then Some (LNum NExpMark neg mant scale eneg ex, [])
      else if is_digit c then None
      else end_number neg mant scale eneg ex c
  | NInt =>
      if is_digit c
      then Some (LNum NInt neg (10 * mant + digit_val c) scale eneg ex, [])
      else if code c =? 46 then Some (LNum NPoint neg mant scale eneg ex, [])
      else if is_exp_mark c then Some (LNum NExpMark neg mant scale eneg ex, [])
      else end_number neg mant scale eneg ex c
  | NPoint =>
      if is_digit c
      then Some (LNum NFrac neg (10 * mant + digit_val c) (scale + 1) eneg ex, [])
      else None
  | NFrac =>
      if is_digit c
      then Some (LNum NFrac neg (10 * mant + digit_val c) (scale + 1) eneg ex, [])
      else if is_exp_mark c then Some (LNum NExpMark neg mant scale eneg ex, [])
      else end_number neg mant scale eneg ex c
  | NExpMark =>
      if code c =? 43 then Some (LNum NExpSign neg mant scale false 0, [])
      else if code c =? 45 then Some (LNum NExpSign neg mant scale true 0, [])
      else if is_digit c
      then Some (LNum NExp neg mant scale false (digit_val c), [])
      else None
  | NExpSign =>
      if is_digit c
      then Some (LNum NExp neg mant scale eneg (digit_val c), [])
      else None
  | NExp =>
      if is_digit c
      then Some (LNum NExp neg mant scale eneg (10 * ex + digit_val c), [])
      else end_number neg mant scale eneg ex c
  end.

Definition lex_escape (acc : list str_item) (c : ascii)
  : option (lex_state * list token) :=
  let n := code c in
  if (n =? 34) || (n =? 92) || (n =? 47) then Some (LStr (Raw c :: acc), [])
  else if n =? 98 then Some (LStr (Raw (chr 8) :: acc), [])
  else if n =? 102 then Some (LStr (Raw (chr 12) :: acc), [])
  else if n =? 110 then Some (LStr (Raw (chr 10) :: acc), [])
  else if n =? 114 then Some (LStr (Raw (chr 13) :: acc), [])
  else if n =? 116 then Some (LStr (Raw (chr 9) :: acc), [])
  else if n =? 117 then Some (LHex acc 0 0, [])
  else None.

Definition lex_step (st : lex_state) (c : ascii)
  : option (lex_state * list token) :=
  match st with
  | LIdle => lex_idle c
  | LLit rest t =>
      match rest with
      | String c' rest' =>
          if (code c =? code c') then
            match rest' with
            | "" => Some (LIdle, [t])
            | _ => Some (LLit rest' t, [])
            end
          else None
      | "" => None
      end
  | LStr acc =>
      if code c =? 34 then Some (LIdle, [TString (encode_items (rev acc))])
      else if code c =? 92 then Some (LEsc acc, [])
      else if code c <? 32 then None
      else Some (LStr (Raw c :: acc), [])
  | LEsc acc => lex_escape acc c
  | LHex acc k v =>
      match hex_val c with
      | Some d =>
          match k with
          | 3%nat => Some (LStr (Unit (16 * v + d) :: acc), [])
          | _ => Some (LHex acc (S k) (16 * v + d), [])
          end
      | None => None
      end
  | LNum ns neg mant scale eneg ex => lex_number ns neg mant scale eneg ex c
  end.

(** Tokens still pending when the text ends. *)
Definition lex_end (st : lex_state) : option (list token) :=
  match st with
  | LIdle => Some []
  | LNum (NZero | NInt | NFrac | NExp) neg mant scale eneg ex =>
      Some [number_token neg mant scale eneg ex]
  | _ => None
  end.

Fixpoint lex (st : lex_state) (s : string) : option (list token) :=
  match s with
  | "" => lex_end st
  | String c rest =>
      match lex_step st c with
      | Some (st', toks) =>
          match lex st' rest with
          | Some more => Some (toks ++ more)%list
          | None => None
          end
      | None => None
      end
  end.

(** The container being filled: an array, an object waiting for a key,
    an object waiting for the value of key [k]. *)
Inductive frame : Type :=
| FArr (acc : list JSValue)
| FObj (acc : list (string * JSValue))
| FObjV (acc : list (string * JSValue)) (k : string).

Inductive parse_state : Type :=
| PValue (first : bool)
| PKey (first : bool)
| PColon (k : string)
| PAfter
| PDone (v : JSValue).

(** A value is complete: store it in the enclosing container. *)
Definition push_value (v : JSValue) (stack : list frame)
  : option (parse_state * list frame) :=
  match stack with
  | [] => Some (PDone v, [])
  | FArr acc :: st => Some (PAfter, FArr (v :: acc) :: st)
  | FObjV acc k :: st => Some (PAfter, FObj ((k, v) :: acc) :: st)
  | FObj _ :: _ => None
  end.

Definition parse_step (ps : parse_state) (stack : list frame) (t : token)
  : option (parse_state * list frame) :=
  match ps with
  | PValue first =>
      match t with
      | TString s => push_value (JStr s) stack
      | TNumber m e => push_value (JNum m e) stack
      | TTrue => push_value (JBool true) stack
      | TFalse => push_value (JBool false) stack
      | TNull => push_value JNull stack
      | TLBracket => Some (PValue true, FArr [] :: stack)
      | TLBrace => Some (PKey true, FObj [] :: stack)
      | TRBracket =>
          match first, stack with
          | true, FArr _ :: st => push_value (JArr []) st
          | _, _ => None
          end
      | _ => None
      end
  | PKey first =>
      match t with
      | TString k => Some (PColon k, stack)
      | TRBrace =>
          match first, stack with
          | true, FObj _ :: st => push_value (JObj []) st
          | _, _ => None
          end
      | _ => None
      end
  | PColon k =>
      match t, stack with
      | TColon, FObj acc :: st => Some (PValue false, FObjV acc k :: st)
      | _, _ => None
      end
  | PAfter =>
      match stack with
      | FArr acc :: st =>
          match t with
          | TComma => Some (PValue false, stack)
          | TRBracket => push_value (JArr (rev acc)) st
          | _ => None
          end
      | FObj acc :: st =>
          match t with
          | TComma => Some (PKey false, stack)
          | TRBrace => push_value (JObj (rev acc)) st
          | _ => None
          end
      | _ => None
      end
  | PDone _ => None
  end.

Fixpoint parse_tokens (ps : parse_state) (stack : list frame)
  (ts : list token) : option JSValue :=
  match ts with
  | [] => match ps with PDone v => Some v | _ => None end
  | t :: rest =>
      match parse_step ps stack t with
      | Some (ps', stack') => parse_tokens ps' stack' rest
      | None => None
      end
  end.

Definition parse (text : string) : option JSValue :=
  match lex LIdle text with
  | Some ts => parse_tokens (PValue false) [] ts
  | None => None
  end.

End Json.

(** ** Data model of the provider *)

(** [interface Question]. *)
Record Question : Type := mkQuestion {
  question : string;
  options : list string;
  correctAnswer : string
}.

(** A question as it is serialised in a response body. *)
Definition question_to_js (q : Question) : JSValue :=
  JObj [ ("question", JStr (question q));
         ("options", JArr (map JStr (options q)));
         ("correctAnswer", JStr (correctAnswer q)) ].

(** The Question invariant of the data model: four distinct options, the
    correct answer equal to exactly one of them. *)
Definition Question_ok (q : Question) : Prop :=
  List.length (options q) = 4%nat /\
  NoDup (options q) /\
  count_occ string_dec (options q) (correctAnswer q) = 1%nat.

Fixpoint distinctb (l : list string) : bool :=
  match l with
  | [] => true
  | x :: rest => negb (existsb (String.eqb x) rest) && distinctb rest
  end.

Definition Question_okb (q : Question) : bool :=
  (List.length (options q) =? 4)%nat
  && distinctb (options q)
  && (count_occ string_dec (options q) (correctAnswer q) =? 1)%nat.

(** What [NextResponse.json(body, { status })] sends; an absent field of the
    body is [None], the status is 200 unless given. *)
Record Response : Type := mkResponse {
  status : Z;
  error : option string;
  questions : option (list JSValue);
  source : option string
}.

Definition json_ok (qs : list JSValue) (src : option string) : Response :=
  {| status := 200; error := None; questions := Some qs; source := src |}.

Definition bad_request : Response :=
  {| status := 400;
     error := Some "Subject and difficulty are required";
     questions := None;
     source := None |}.

(** What [await request.json()] and the destructuring
    [{ subject, difficulty, numberOfQuestions = 10 }] meet.  The fields are
    taken at the types of the endpoint's interface: [subject] and
    [difficulty] absent or a string, [numberOfQuestions] absent or an
    integer.  A JSON value other than [null] that is no object has none of
    the three properties and is [BodyFields None None None]. *)
Inductive Body : Type :=
| BodyUnparseable
| BodyNull
| BodyFields (subject difficulty : option string)
             (numberOfQuestions : option Z).

(** ToBoolean of a field read from the body. *)
Definition present (field : option string) : bool :=
  match field with
  | Some s => negb (s =? "")%string
  | None => false
  end.

(** The default of the destructuring pattern, [numberOfQuestions = 10]. *)
Definition with_default (numberOfQuestions : option Z) : Z :=
  match numberOfQuestions with
  | Some n => n
  | None => 10
  end.

(** One call of an external text generation service: it throws, or it
    returns a content (which is [null] for [None]). *)
Inductive Outcome : Type :=
| Raised
| Returned (content : option string).

(** [Array.prototype.slice(start, end)] on integer arguments. *)
Definition slice {A : Type} (l : list A) (start end_ : Z) : list A :=
  let len := Z.of_nat (List.length l) in
  let k := if start <? 0 then Z.max (len + start) 0 else Z.min start len in
  let final := if end_ <? 0 then Z.max (len + end_) 0 else Z.min end_ len in
  firstn (Z.to_nat (Z.max (final - k) 0)) (skipn (Z.to_nat k) l).

Section Stages.

Variable JSON_parse : string -> option JSValue.

(** [parsedContent.questions || []] followed by the test
    [!Array.isArray(questions) || questions.length === 0].  Reading a
    property of [null] throws; arrays, strings, numbers and booleans have
    no property named [questions]. *)
Definition questions_of (parsedContent : JSValue) : option (list JSValue) :=
  match parsedContent with
  | JNull => None
  | _ =>
      let prop :=
        match parsedContent with
        | JObj fields => own_property fields "questions"
        | _ => None
        end in
      let questions :=
        match prop with
        | Some v => if truthy v then v else JArr []
        | None => JArr []
        end in
      match questions with
      | JArr (q :: rest) => Some (q :: rest)
      | _ => None
      end
  end.

(** The Gemini stage: [route.ts] lines 76-103, the same text in the
    mock-data variant (lines 190-217) and in the two-stage variant (lines
    144-173).  [None]: the stage threw and the enclosing catch takes over. *)
Definition gemini_stage (gemini : Outcome) : option (list JSValue) :=
  match gemini with
  | Raised => None
  | Returned None => None
  | Returned (Some content) =>
      if (content =? "")%string then None
      else
        let cleanedContent := trim (replace_fences 0 content) in
        match JSON_parse cleanedContent with
        | None => None
        | Some parsedContent => questions_of parsedContent
        end
  end.

(** The OpenAI stage of the two-stage variant (lines 82-112): the content
    is parsed as it is. *)
Definition openai_stage (openai : Outcome) : option (list JSValue) :=
  match openai with
  | Raised => None
  | Returned None => None
  | Returned (Some content) =>
      if (content =? "")%string then None
      else
        match JSON_parse content with
        | None => None
        | Some parsedContent => questions_of parsedContent
        end
  end.

End Stages.

(** *** [src/app/api/generate-questions/route.ts] *)

Module Route.

Definition fallbackQuestions : list Question :=
  [ mkQuestion "What is the chemical symbol for gold?"
      ["Au"; "Ag"; "Fe"; "Cu"] "Au";
    mkQuestion "Which planet is known as the Red Planet?"
      ["Mars"; "Venus"; "Jupiter"; "Mercury"] "Mars";
    mkQuestion
      "What is the process by which plants make their own food using sunlight?"
      ["Photosynthesis"; "Respiration"; "Transpiration"; "Germination"]
      "Photosynthesis";
    mkQuestion "What is the largest organ in the human body?"
      ["Skin"; "Liver"; "Heart"; "Brain"] "Skin";
    mkQuestion "Which of these is NOT a state of matter?"
      ["Energy"; "Solid"; "Liquid"; "Gas"] "Energy" ].

Definition POST (JSON_parse : string -> option JSValue)
  (body : Body) (gemini : Outcome) : Response :=
  match body with
  | BodyFields subject difficulty numberOfQuestions =>
      let numberOfQuestions := with_default numberOfQuestions in
      if negb (present subject) || negb (present difficulty) then bad_request
      else
        match gemini_stage JSON_parse gemini with
        | Some questions => json_ok questions None
        | None =>
            let questions :=
              slice fallbackQuestions 0
                (Z.min numberOfQuestions
                   (Z.of_nat (List.length fallbackQuestions))) in
            json_ok (map question_to_js questions) (Some "fallback")
        end
  | BodyUnparseable | BodyNull =>
      json_ok (map question_to_js (slice fallbackQuestions 0 5))
        (Some "error-fallback")
  end.

End Route.

(** *** The two-stage variant of route.ts (source part_001): OpenAI, then
    Gemini, then the fallback list *)

Module TwoStage.

Definition fallbackQuestions : list Question :=
  [ mkQuestion "What is the chemical symbol for gold?"
      ["Au"; "Ag"; "Fe"; "Cu"] "Au";
    mkQuestion "Which planet is known as the Red Planet?"
      ["Mars"; "Venus"; "Jupiter"; "Mercury"] "Mars";
    mkQuestion
      "What is the process by which plants make their own food using sunlight?"
      ["Photosynthesis"; "Respiration"; "Transpiration"; "Germination"]
      "Photosynthesis";
    mkQuestion "What is the largest organ in the human body?"
      ["Skin"; "Liver"; "Heart"; "Brain"] "Skin";
    mkQuestion "Which of these is NOT a state of matter?"
      ["Energy"; "Solid"; "Liquid"; "Gas"] "Energy" ].

Definition POST (JSON_parse : string -> option JSValue)
  (body : Body) (openai gemini : Outcome) : Response :=
  match body with
  | BodyFields subject difficulty numberOfQuestions =>
      let numberOfQuestions := with_default numberOfQuestions in
      if negb (present subject) || negb (present difficulty) then bad_request
      else
        match openai_stage JSON_parse openai with
        | Some questions => json_ok questions (Some "openai")
        | None =>
            match gemini_stage JSON_parse gemini with
            | Some questions => json_ok questions (Some "gemini")
            | None =>
                let limitedFallbackQuestions :=
                  slice fallbackQuestions 0
                    (Z.min numberOfQuestions
                       (Z.of_nat (List.length fallbackQuestions))) in
                json_ok (map question_to_js limitedFallbackQuestions)
                  (Some "fallback")
            end
        end
  | BodyUnparseable | BodyNull =>
      json_ok (map question_to_js (slice fallbackQuestions 0 5))
        (Some "error-fallback")
  end.

End TwoStage.

(** *** The mock-data variant of route.ts (source part_000): Gemini, then a
    table keyed by subject *)

Module MockRoute.

(** [const mockData: MockDataType], an object literal, as the list of its
    own properties. *)
Definition mockData : list (string * list Question) :=
  [ ("Mathematics",
     [ mkQuestion "What is the value of π (pi) to two decimal places?"
         ["3.14"; "3.16"; "3.12"; "3.18"] "3.14";
       mkQuestion "Solve for x: 2x + 5 = 13"
         ["x = 4"; "x = 5"; "x = 3"; "x = 6"] "x = 4";
       mkQuestion "What is the area of a circle with radius 5 units?"
         ["25π square units"; "10π square units"; "5π square units";
          "15π square units"] "25π square units";
       mkQuestion "What is the square root of 144?"
         ["12"; "14"; "10"; "16"] "12";
       mkQuestion
         "If a triangle has angles measuring 30°, 60°, and 90°, what type of triangle is it?"
         ["Right triangle"; "Equilateral triangle"; "Isosceles triangle";
          "Scalene triangle"] "Right triangle" ]);
    ("Science",
     [ mkQuestion "What is the chemical symbol for gold?"
         ["Au"; "Ag"; "Fe"; "Cu"] "Au";
       mkQuestion "Which planet is known as the Red Planet?"
         ["Mars"; "Venus"; "Jupiter"; "Mercury"] "Mars";
       mkQuestion
         "What is the process by which plants make their own food using sunlight?"
         ["Photosynthesis"; "Respiration"; "Transpiration"; "Germination"]
         "Photosynthesis";
       mkQuestion "What is the largest organ in the human body?"
         ["Skin"; "Liver"; "Heart"; "Brain"] "Skin";
       mkQuestion "Which of these is NOT a state of matter?"
         ["Energy"; "Solid"; "Liquid"; "Gas"] "Energy" ]);
    ("History",
     [ mkQuestion "Who was the first President of the United States?"
         ["George Washington"; "Thomas Jefferson"; "Abraham Lincoln";
          "John Adams"] "George Washington";
       mkQuestion "In which year did World War II end?"
         ["1945"; "1939"; "1942"; "1950"] "1945";
       mkQuestion "Which ancient civilization built the pyramids at Giza?"
         ["Ancient Egyptians"; "Ancient Greeks"; "Romans"; "Mayans"]
         "Ancient Egyptians";
       mkQuestion "Who wrote the Declaration of Independence?"
         ["Thomas Jefferson"; "George Washington"; "Benjamin Franklin";
          "John Adams"] "Thomas Jefferson";
       mkQuestion "Which event marked the beginning of World War I?"
         ["Assassination of Archduke Franz Ferdinand";
          "The invasion of Poland"; "The sinking of the Lusitania";
          "The Treaty of Versailles"]
         "Assassination of Archduke Franz Ferdinand" ]);
    ("General Knowledge",
     [ mkQuestion "Which is the largest ocean on Earth?"
         ["Pacific Ocean"; "Atlantic Ocean"; "Indian Ocean"; "Arctic Ocean"]
         "Pacific Ocean";
       mkQuestion "What is the capital of Japan?"
         ["Tokyo"; "Beijing"; "Seoul"; "Bangkok"] "Tokyo";
       mkQuestion "Who painted the Mona Lisa?"
         ["Leonardo da Vinci"; "Pablo Picasso"; "Vincent van Gogh";
          "Michelangelo"] "Leonardo da Vinci";
       mkQuestion "Which planet is closest to the Sun?"
         ["Mercury"; "Venus"; "Earth"; "Mars"] "Mercury";
       mkQuestion "What is the tallest mountain in the world?"
         ["Mount Everest"; "K2"; "Kangchenjunga"; "Makalu"]
         "Mount Everest" ]);
    ("Machine Learning",
     [ mkQuestion "What is the process of finding patterns in data called?"
         ["Data Mining"; "Data Cleaning"; "Data Visualization";
          "Data Collection"] "Data Mining";
       mkQuestion "Which algorithm is used for classification problems?"
         ["Decision Tree"; "K-means"; "Linear Regression";
          "Principal Component Analysis"] "Decision Tree";
       mkQuestion "What does CNN stand for in deep learning?"
         ["Convolutional Neural Network"; "Computational Neural Network";
          "Complex Neural Network"; "Continuous Neural Network"]
         "Convolutional Neural Network";
       mkQuestion "Which of these is a supervised learning algorithm?"
         ["Support Vector Machine"; "K-means clustering";
          "Apriori algorithm"; "Principal Component Analysis"]
         "Support Vector Machine";
       mkQuestion "What is the goal of the backpropagation algorithm?"
         ["To update weights in a neural network"; "To cluster data points";
          "To reduce dimensionality"; "To generate new data samples"]
         "To update weights in a neural network" ]) ].

(** The properties every object literal inherits from [Object.prototype];
    each is a function or an object, so truthy and without a [slice]. *)
Definition object_prototype_keys : list string :=
  [ "constructor"; "__defineGetter__"; "__defineSetter__"; "hasOwnProperty";
    "__lookupGetter__"; "__lookupSetter__"; "isPrototypeOf";
    "propertyIsEnumerable"; "toString"; "valueOf"; "__proto__";
    "toLocaleString" ].

(** What the property read [mockData[key]] evaluates to. *)
Inductive Property : Type :=
| Own (entries : list Question)
| Inherited
| Undefined.

Fixpoint own_entries (table : list (string * list Question)) (key : string)
  : option (list Question) :=
  match table with
  | [] => None
  | (k, entries) :: rest =>
      if (k =? key)%string then Some entries else own_entries rest key
  end.

Definition mockData_get (key : string) : Property :=
  match own_entries mockData key with
  | Some entries => Own entries
  | None =>
      if existsb (String.eqb key) object_prototype_keys then Inherited
      else Undefined
  end.

(** ToPropertyKey of the [subject] read from the body. *)
Definition property_key (subject : option string) : string :=
  match subject with
  | Some s => s
  | None => "undefined"
  end.

Definition general_knowledge : list Question :=
  match mockData_get "General Knowledge" with
  | Own entries => entries
  | _ => []
  end.

(** The outer catch (lines 242-251). *)
Definition final_fallback : Response :=
  json_ok (map question_to_js (slice general_knowledge 0 5)) (Some "fallback").

Definition POST (JSON_parse : string -> option JSValue)
  (body : Body) (gemini : Outcome) : Response :=
  match body with
  | BodyFields subject difficulty numberOfQuestions =>
      let numberOfQuestions := with_default numberOfQuestions in
      if negb (present subject) || negb (present difficulty) then bad_request
      else
        match gemini_stage JSON_parse gemini with
        | Some questions => json_ok questions None
        | None =>
            (* the inner catch, lines 218-241 *)
            match mockData_get (property_key subject) with
            | Own entries =>
                json_ok (map question_to_js (slice entries 0 numberOfQuestions))
                  (Some "mock")
            | Undefined =>
                json_ok
                  (map question_to_js
                     (slice general_knowledge 0 numberOfQuestions))
                  (Some "mock")
            | Inherited =>
                (* [questions.slice] is not a function: the TypeError leaves
                   the inner catch and reaches the outer one *)
                final_fallback
            end
        end
  | BodyUnparseable | BodyNull => final_fallback
  end.

End MockRoute.

(** ** The quiz controller: [Quiz.tsx] (source part_003)

    The component's state after the questions have been fetched ([loading]
    false, [error] null).  A transition is one event (a timer tick, a click
    on an option, a click on "Next Question") together with the state
    updates and effects it triggers, which React flushes before the next
    event is handled. *)

Module Quiz.

Definition TIME_LIMIT : Z := 60.

Record Results : Type := mkResults {
  correctAnswers : Z;
  wrongAnswers : Z;
  secondsUsed : Z
}.

(** The [useState] cells, and [timerRunning] for whether [timerRef] holds a
    live interval. *)
Record State : Type := mkState {
  timePassed : Z;
  activeQuestion : Z;
  selectedAnswerIndex : Z;
  quizFinished : bool;
  isCorrectAnswer : bool;
  results : Results;
  timerRunning : bool
}.

(** [array[i]]: [None] is [undefined]. *)
Definition index {A : Type} (l : list A) (i : Z) : option A :=
  if i <? 0 then None else nth_error l (Z.to_nat i).

Inductive Event : Type :=
| Tick
| SelectAnswer (answerIndex : Z)
| NextClick.

Section Controller.

Variable quizQuestions : list Question.

(** The setters of the [useState] cells. *)
Definition setTimePassed (t : Z) (st : State) : State :=
  {| timePassed := t;
     activeQuestion := activeQuestion st;
     selectedAnswerIndex := selectedAnswerIndex st;
     quizFinished := quizFinished st;
     isCorrectAnswer := isCorrectAnswer st;
     results := results st;
     timerRunning := timerRunning st |}.

Definition setActiveQuestion (i : Z) (st : State) : State :=
  {| timePassed := timePassed st;
     activeQuestion := i;
     selectedAnswerIndex := selectedAnswerIndex st;
     quizFinished := quizFinished st;
     isCorrectAnswer := isCorrectAnswer st;
     results := results st;
     timerRunning := timerRunning st |}.

Definition setSelectedAnswerIndex (i : Z) (st : State) : State :=
  {| timePassed := timePassed st;
     activeQuestion := activeQuestion st;
     selectedAnswerIndex := i;
     quizFinished := quizFinished st;
     isCorrectAnswer := isCorrectAnswer st;
     results := results st;
     timerRunning := timerRunning st |}.

Definition setQuizFinished (b : bool) (st : State) : State :=
  {| timePassed := timePassed st;
     activeQuestion := activeQuestion st;
     selectedAnswerIndex := selectedAnswerIndex st;
     quizFinished := b;
     isCorrectAnswer := isCorrectAnswer st;
     results := results st;
     timerRunning := timerRunning st |}.

Definition setIsCorrectAnswer (b : bool) (st : State) : State :=
  {| timePassed := timePassed st;
     activeQuestion := activeQuestion st;
     selectedAnswerIndex := selectedAnswerIndex st;
     quizFinished := quizFinished st;
     isCorrectAnswer := b;
     results := results st;
     timerRunning := timerRunning st |}.

Definition setResults (r : Results) (st : State) : State :=
  {| timePassed := timePassed st;
     activeQuestion := activeQuestion st;
     selectedAnswerIndex := selectedAnswerIndex st;
     quizFinished := quizFinished st;
     isCorrectAnswer := isCorrectAnswer st;
     results := r;
     timerRunning := timerRunning st |}.

(** [clearInterval(timerRef.current)]. *)
Definition clearTimer (st : State) : State :=
  {| timePassed := timePassed st;
     activeQuestion := activeQuestion st;
     selectedAnswerIndex := selectedAnswerIndex st;
     quizFinished := quizFinished st;
     isCorrectAnswer := isCorrectAnswer st;
     results := results st;
     timerRunning := false |}.

(** [setupTimer]: the old interval is cleared and a new one started. *)
Definition setupTimer (st : State) : State :=
  {| timePassed := timePassed st;
     activeQuestion := activeQuestion st;
     selectedAnswerIndex := selectedAnswerIndex st;
     quizFinished := quizFinished st;
     isCorrectAnswer := isCorrectAnswer st;
     results := results st;
     timerRunning := true |}.

(** The initial values of the cells; the timer effect (lines 103-113) has
    started the interval unless there is no question. *)
Definition initial : State :=
  {| timePassed := 0;
     activeQuestion := 0;
     selectedAnswerIndex := -1;
     quizFinished := false;
     isCorrectAnswer := false;
     results := mkResults 0 0 0;
     timerRunning := negb (Z.of_nat (List.length quizQuestions) =? 0) |}.

(** The updater that the interval of [setupTimer] applies every second. *)
Definition tickUpdate (st : State) : State :=
  setTimePassed
    (if timePassed st >? TIME_LIMIT then TIME_LIMIT else timePassed st + 1)
    st.

(** [handleNextQuestion].  When the quiz finishes, the clean-up of the
    timer effect (dependency [quizFinished]) clears the interval. *)
Definition handleNextQuestion (st : State) : State :=
  let st1 := setSelectedAnswerIndex (-1) st in
  if activeQuestion st + 1 >=? Z.of_nat (List.length quizQuestions) then
    clearTimer (setQuizFinished true st1)
  else
    setTimePassed 0 (setupTimer (setActiveQuestion (activeQuestion st + 1) st1)).

(** The effect with dependency [timePassed] (lines 115-136). *)
Definition timeEffect (st : State) : State :=
  if quizFinished st || (Z.of_nat (List.length quizQuestions) =? 0) then st
  else if timePassed st >? TIME_LIMIT then
    let st1 :=
      if selectedAnswerIndex st =? -1 then
        setResults
          {| correctAnswers := correctAnswers (results st);
             wrongAnswers := wrongAnswers (results st) + 1;
             secondsUsed := secondsUsed (results st) + TIME_LIMIT |} st
      else st in
    setTimePassed 0 (handleNextQuestion st1)
  else st.

(** [handleSelectAnswer]; [None] when [quizQuestions[activeQuestion]] is
    undefined and reading its [correctAnswer] throws. *)
Definition handleSelectAnswer (st : State) (answerIndex : Z) : option State :=
  let st1 := setSelectedAnswerIndex answerIndex (clearTimer st) in
  match index quizQuestions (activeQuestion st) with
  | None => None
  | Some q =>
      let correctAnswer := correctAnswer q in
      let selectedAnswer := index (options q) answerIndex in
      let same :=
        match selectedAnswer with
        | Some a => (correctAnswer =? a)%string
        | None => false
        end in
      if same then
        Some (setIsCorrectAnswer true
                (setResults
                   {| correctAnswers := correctAnswers (results st) + 1;
                      wrongAnswers := wrongAnswers (results st);
                      secondsUsed := secondsUsed (results st) + timePassed st |}
                   st1))
      else
        Some (setIsCorrectAnswer false
                (setResults
                   {| correctAnswers := correctAnswers (results st);
                      wrongAnswers := wrongAnswers (results st) + 1;
                      secondsUsed := secondsUsed (results st) + timePassed st |}
                   st1))
  end.

(** Modelled from the spec: the [OptionList] component, which is not among
    the sources.  "User may select exactly one option before the limit":
    a click reaches [handleSelectAnswer] only while no option is selected,
    and with the index of one of the options shown. *)
Definition option_clickable (st : State) (answerIndex : Z) : bool :=
  (selectedAnswerIndex st =? -1)
  && match index quizQuestions (activeQuestion st) with
     | Some q =>
         (0 <=? answerIndex)
         && (answerIndex <? Z.of_nat (List.length (options q)))
     | None => false
     end.

(** One event.  [None]: the event cannot happen in [st] (the question view
    is not rendered once the quiz is finished or without questions; a
    cleared interval does not tick; the "Next Question" button is rendered
    only after a selection).  A tick is the interval's update followed by
    the time-out effect; the component also renders the state in between,
    [tickUpdate st]. *)
Definition step (st : State) (ev : Event) : option State :=
  if quizFinished st || (Z.of_nat (List.length quizQuestions) =? 0) then None
  else
    match ev with
    | Tick =>
        if timerRunning st then Some (timeEffect (tickUpdate st)) else None
    | SelectAnswer answerIndex =>
        if option_clickable st answerIndex
        then handleSelectAnswer st answerIndex
        else None
    | NextClick =>
        if selectedAnswerIndex st =? -1 then None
        else Some (handleNextQuestion st)
    end.

Fixpoint run (st : State) (evs : list Event) : option State :=
  match evs with
  | [] => Some st
  | ev :: rest =>
      match step st ev with
      | Some st' => run st' rest
      | None => None
      end
  end.

End Controller.

(** Questions answered so far. *)
Definition tally (st : State) : Z :=
  correctAnswers (results st) + wrongAnswers (results st).

(** What holds of the state between two events. *)
Definition Inv (quizQuestions : list Question) (st : State) : Prop :=
  let n := Z.of_nat (List.length quizQuestions) in
  0 <= activeQuestion st < n
  /\ 0 <= timePassed st <= TIME_LIMIT
  /\ secondsUsed (results st) <= tally st * TIME_LIMIT
  /\ tally st =
     if quizFinished st then n
     else activeQuestion st
          + (if selectedAnswerIndex st =? -1 then 0 else 1).

End Quiz.

(** ** Vocabulary of the statements *)

(** The response carries a [questions] array with at least one element. *)
Definition nonempty_questions (r : Response) : Prop :=
  exists q rest, questions r = Some (q :: rest).

(** A field of the request body is absent or the empty string. *)
Definition absent_or_empty (field : option string) : Prop :=
  field = None \/ field = Some "".

(** The [subject] and the [difficulty] that the request body holds.  A
    [null] body and a body that is not JSON hold neither. *)
Definition subject_of (body : Body) : option string :=
  match body with
  | BodyFields subject _ _ => subject
  | BodyUnparseable | BodyNull => None
  end.

Definition difficulty_of (body : Body) : option string :=
  match body with
  | BodyFields _ difficulty _ => difficulty
  | BodyUnparseable | BodyNull => None
  end.

(** [subject] or [difficulty] is absent or empty in the request body.  This
    holds of the body [null] and of a body that is not JSON. *)
Definition fields_missing (body : Body) : Prop :=
  absent_or_empty (subject_of body) \/ absent_or_empty (difficulty_of body).

(** The request body is JSON and is not [null]: [request.json()] resolves
    and the destructuring of its value does not throw. *)
Definition json_not_null (body : Body) : Prop :=
  body <> BodyUnparseable /\ body <> BodyNull.

(** The response is the client error: status 400, an [error] field and no
    [questions] field. *)
Definition rejected (r : Response) : Prop :=
  status r = 400 /\ error r <> None /\ questions r = None.

(** The response has status 200, a [questions] field and no [error]
    field. *)
Definition served (r : Response) : Prop :=
  status r = 200 /\ error r = None /\ questions r <> None.

(** Every response is either the 400 rejection, for a body that is JSON
    other than [null] with a missing field, or a 200 with a [questions]
    array. *)
Definition well_shaped (body : Body) (r : Response) : Prop :=
  (json_not_null body /\ fields_missing body /\ r = bad_request) \/
  (~ (json_not_null body /\ fields_missing body)
   /\ exists qs src, r = json_ok qs src).

(** The array holds exactly the serialised questions [qs]. *)
Definition carries (r : Response) (qs : list Question) : Prop :=
  questions r = Some (map question_to_js qs).

(** The parsed value is an object whose [questions] property is a non-empty
    array; the result is that array. *)
Definition questions_array (v : JSValue) : option (list JSValue) :=
  match v with
  | JObj fields =>
      match own_property fields "questions" with
      | Some (JArr (q :: rest)) => Some (q :: rest)
      | _ => None
      end
  | _ => None
  end.

(** A generation stage as the specification words it: strip the markdown
    code-fence markers (and the white space around) from the raw text,
    parse the remainder as JSON; the stage has failed ([None]) when parsing
    fails or the parsed object has no non-empty [questions] array. *)
Definition spec_stage (JSON_parse : string -> option JSValue)
  (content : string) : option (list JSValue) :=
  match JSON_parse (trim (replace_fences 0 content)) with
  | None => None
  | Some v => questions_array v
  end.

(** The same without the stripping step. *)
Definition spec_stage_raw (JSON_parse : string -> option JSValue)
  (content : string) : option (list JSValue) :=
  match JSON_parse content with
  | None => None
  | Some v => questions_array v
  end.

(** The History entries of the mock-data table. *)
Definition history_table : list Question :=
  match MockRoute.mockData_get "History" with
  | MockRoute.Own entries => entries
  | _ => []
  end.

(** A text with the questions array [[1]] inside a markdown code fence. *)
Definition fenced_text : string :=
  "```json{" ++ dquote ++ "questions" ++ dquote ++ ":[1]}```".

(** A text with two array elements that are no questions. *)
Definition two_numbers_text : string :=
  "{" ++ dquote ++ "questions" ++ dquote ++ ":[1,2]}".

(** ** The client side of the request: [fetchQuestions] and the render
    branches of [Quiz.tsx] *)

Module Client.

(** What [fetch] and [response.json()] give the component: [fetch] rejects
    with an error of the given message; the reply has a status and a body
    that is no JSON ([response.json()] rejects with the given message); the
    reply is one the route sends. *)
Inductive Reply : Type :=
| NetworkError (message : string)
| NotJson (status : Z) (message : string)
| Json (r : Response).

(** The cells [loading], [error] and [quizQuestions] once the fetch effect
    has run: an error message is set, or the questions are. *)
Inductive LoadState : Type :=
| Failed (error : string)
| Loaded (quizQuestions : list JSValue).

(** [response.ok]. *)
Definition response_ok (status : Z) : bool :=
  (200 <=? status) && (status <=? 299).

(** [a || b] on strings. *)
Definition or_else (a b : string) : string :=
  if (a =? "")%string then b else a.

(** The status in a template literal. *)
Definition status_text (status : Z) : string :=
  NilZero.string_of_int (Z.to_int status).

Definition default_error : string :=
  "Failed to load questions. Please try again.".

(** The body [JSON.stringify({ subject, difficulty: level,
    numberOfQuestions: 10 })] as the route reads it. *)
Definition request_body (subject level : string) : Body :=
  BodyFields (Some subject) (Some level) (Some 10).

(** [fetchQuestions] (lines 48-86), from the reply on. *)
Definition fetchQuestions (reply : Reply) : LoadState :=
  match reply with
  | NetworkError message => Failed (or_else message default_error)
  | NotJson status message =>
      if response_ok status then Failed (or_else message default_error)
      else
        Failed
          (or_else ("Failed to fetch questions: " ++ status_text status)
             default_error)
  | Json r =>
      if response_ok (status r) then
        match questions r with
        | Some (q :: rest) => Loaded (q :: rest)
        | Some [] | None =>
            Failed
              (or_else "No questions received from the API" default_error)
        end
      else
        let fallback_message :=
          "Failed to fetch questions: " ++ status_text (status r) in
        let message :=
          match error r with
          | Some e => or_else e fallback_message
          | None => fallback_message
          end in
        Failed (or_else message default_error)
  end.

(** What the component returns (lines 194-320), reduced to what the claims
    and the controller decide. *)
Inductive View : Type :=
| LoadingView
| ErrorView (message : string)
| ResultView (results : Quiz.Results) (totalQuestions : Z)
| QuestionView (number numberOfQuestions : Z) (q : Question)
               (timePassed : Z) (nextButton : bool).

(** The render branches; [None]: the destructuring of
    [quizQuestions[activeQuestion]] throws. *)
Definition render (loading : bool) (error : option string)
  (quizQuestions : list Question) (st : Quiz.State) : option View :=
  if loading then Some LoadingView
  else
    let error_text := match error with Some e => e | None => "" end in
    if negb (error_text =? "")%string
       || (Z.of_nat (List.length quizQuestions) =? 0)
    then Some (ErrorView (or_else error_text "No questions available"))
    else if Quiz.quizFinished st
    then Some (ResultView (Quiz.results st)
                 (Z.of_nat (List.length quizQuestions)))
    else
      match Quiz.index quizQuestions (Quiz.activeQuestion st) with
      | None => None
      | Some q =>
          Some (QuestionView (Quiz.activeQuestion st + 1)
                  (Z.of_nat (List.length quizQuestions)) q
                  (Quiz.timePassed st)
                  (negb (Quiz.selectedAnswerIndex st =? -1)))
      end.

End Client.

(** ** The page: [page.tsx] with [SubjectSelect] *)

Module Home.

Definition subjects : list string :=
  [ "Mathematics"; "Science"; "History"; "General Knowledge";
    "Machine Learning" ].

Definition levels : list string := [ "Easy"; "Medium"; "Hard" ].

Record State : Type := mkState {
  displayView : string;
  selectedSubject : string;
  selectedLevel : string
}.

Definition initial : State :=
  {| displayView := "intro"; selectedSubject := ""; selectedLevel := "" |}.

Definition setDisplayView (v : string) (st : State) : State :=
  {| displayView := v;
     selectedSubject := selectedSubject st;
     selectedLevel := selectedLevel st |}.

Definition setSelectedSubject (s : string) (st : State) : State :=
  {| displayView := displayView st;
     selectedSubject := s;
     selectedLevel := selectedLevel st |}.

Definition setSelectedLevel (l : string) (st : State) : State :=
  {| displayView := displayView st;
     selectedSubject := selectedSubject st;
     selectedLevel := l |}.

(** The component the object literal of [Home] holds under [displayView];
    [None]: no such key, nothing is rendered. *)
Inductive Screen : Type :=
| IntroScreen
| SubjectSelectScreen
| CountdownScreen
| QuizScreen (subject level : string).

Definition render (st : State) : option Screen :=
  if (displayView st =? "intro")%string then Some IntroScreen
  else if (displayView st =? "subject-select")%string
  then Some SubjectSelectScreen
  else if (displayView st =? "countdown")%string then Some CountdownScreen
  else if (displayView st =? "quiz")%string
  then Some (QuizScreen (selectedSubject st) (selectedLevel st))
  else None.

(** [disabled={!selectedSubject || !selectedLevel}] of the Continue
    button. *)
Definition continue_disabled (st : State) : bool :=
  (selectedSubject st =? "")%string || (selectedLevel st =? "")%string.

(** The callbacks the rendered screen can fire: [onGetStartedClick] of
    Intro, one button per entry of [subjects] and of [levels] and the
    Continue button of SubjectSelect, [onGoClick] of Countdown. *)
Inductive Event : Type :=
| GetStartedClick
| SubjectClick (subject : string)
| LevelClick (level : string)
| ContinueClick
| GoClick.

(** Modelled from the spec: the [Button] component, which is not among the
    sources.  "User must pick exactly one subject and one difficulty level
    before continue is enabled": a disabled button does not fire
    [onClick]. *)
Definition continue_fires (st : State) : bool := negb (continue_disabled st).

(** One event; [None]: the screen shown has no such control. *)
Definition step (st : State) (ev : Event) : option State :=
  match render st, ev with
  | Some IntroScreen, GetStartedClick =>
      Some (setDisplayView "subject-select" st)
  | Some SubjectSelectScreen, SubjectClick subject =>
      if existsb (String.eqb subject) subjects
      then Some (setSelectedSubject subject st) else None
  | Some SubjectSelectScreen, LevelClick level =>
      if existsb (String.eqb level) levels
      then Some (setSelectedLevel level st) else None
  | Some SubjectSelectScreen, ContinueClick =>
      if continue_fires st then Some (setDisplayView "countdown" st)
      else None
  | Some CountdownScreen, GoClick => Some (setDisplayView "quiz" st)
  | _, _ => None
  end.

Fixpoint run (st : State) (evs : list Event) : option State :=
  match evs with
  | [] => Some st
  | ev :: rest =>
      match step st ev with
      | Some st' => run st' rest
      | None => None
      end
  end.

End Home.

(** ** Vocabulary of the further statements *)

(** The text holds a code-fence marker somewhere. *)
Fixpoint has_fence (s : string) : bool :=
  match s with
  | "" => false
  | String _ rest => prefix "```" s || has_fence rest
  end.

(** The text holds no backtick. *)
Fixpoint no_backtick (s : string) : bool :=
  match s with
  | "" => true
  | String c rest => negb (Ascii.eqb c "`") && no_backtick rest
  end.

(** The number of questions [slice(0, count)] keeps of a table of five. *)
Definition kept_of_five (count : Z) : nat :=
  Z.to_nat (if count <? 0 then Z.max (5 + count) 0 else Z.min count 5).

(** A whole session of clicks: on each question the option of the given
    index, then "Next Question". *)
Definition answer_all (choices : list Z) : list Quiz.Event :=
  flat_map (fun i => [Quiz.SelectAnswer i; Quiz.NextClick]) choices.

(** The chosen option is the correct answer of the question. *)
Definition chosen_correct (q : Question) (choice : Z) : bool :=
  match Quiz.index (options q) choice with
  | Some a => (correctAnswer q =? a)%string
  | None => false
  end.

(** The number of questions whose chosen option is the correct answer. *)
Fixpoint score (quizQuestions : list Question) (choices : list Z) : Z :=
  match quizQuestions, choices with
  | q :: qs, c :: cs =>
      (if chosen_correct q c then 1 else 0) + score qs cs
  | _, _ => 0
  end.

(** The state of a quiz nobody touches, after [ticks] ticks and before the
    last time-out. *)
Definition unattended (ticks : Z) : Quiz.State :=
  {| Quiz.timePassed := ticks mod 61;
     Quiz.activeQuestion := ticks / 61;
     Quiz.selectedAnswerIndex := -1;
     Quiz.quizFinished := false;
     Quiz.isCorrectAnswer := false;
     Quiz.results := Quiz.mkResults 0 (ticks / 61) (60 * (ticks / 61));
     Quiz.timerRunning := true |}.

(** The text without its first [k] characters. *)
Fixpoint drop_chars (k : nat) (s : string) : string :=
  match k, s with
  | S k', String _ rest => drop_chars k' rest
  | _, _ => s
  end.

(** A subject and a level of the lists are selected. *)
Definition selection_made (st : Home.State) : Prop :=
  In (Home.selectedSubject st) Home.subjects
  /\ In (Home.selectedLevel st) Home.levels.

(** What holds of the page state after any sequence of events. *)
Definition page_invariant (st : Home.State) : Prop :=
  (Home.selectedSubject st = "" \/ In (Home.selectedSubject st) Home.subjects)
  /\ (Home.selectedLevel st = "" \/ In (Home.selectedLevel st) Home.levels)
  /\ (Home.displayView st = "intro"
      \/ Home.displayView st = "subject-select"
      \/ ((Home.displayView st = "countdown"
           \/ Home.displayView st = "quiz")
          /\ selection_made st)).

(** The timer runs exactly while the question shown has no selection. *)
Definition timer_matches (st : Quiz.State) : Prop :=
  Quiz.timerRunning st
  = negb (Quiz.quizFinished st) && (Quiz.selectedAnswerIndex st =? -1).

(** The quiz nobody touches, once the last question has timed out. *)
Definition all_timed_out (n : Z) : Quiz.State :=
  {| Quiz.timePassed := 0;
     Quiz.activeQuestion := n - 1;
     Quiz.selectedAnswerIndex := -1;
     Quiz.quizFinished := true;
     Quiz.isCorrectAnswer := false;
     Quiz.results := Quiz.mkResults 0 n (60 * n);
     Quiz.timerRunning := false |}.

(** The later state is no earlier in the quiz than the former. *)
Definition no_earlier (st st' : Quiz.State) : Prop :=
  Quiz.activeQuestion st <= Quiz.activeQuestion st'
  /\ Quiz.correctAnswers (Quiz.results st)
     <= Quiz.correctAnswers (Quiz.results st')
  /\ Quiz.wrongAnswers (Quiz.results st)
     <= Quiz.wrongAnswers (Quiz.results st')
  /\ Quiz.secondsUsed (Quiz.results st)
     <= Quiz.secondsUsed (Quiz.results st')
  /\ (Quiz.quizFinished st = true -> Quiz.quizFinished st' = true).

(** A question is on screen, no option selected, nothing counted yet on
    the clock. *)
Definition fresh_question (st : Quiz.State) (k c w : Z) : Prop :=
  Quiz.timePassed st = 0 /\ Quiz.activeQuestion st = k
  /\ Quiz.selectedAnswerIndex st = -1 /\ Quiz.quizFinished st = false
  /\ Quiz.correctAnswers (Quiz.results st) = c
  /\ Quiz.wrongAnswers (Quiz.results st) = w
  /\ Quiz.secondsUsed (Quiz.results st) = 0.

(** The states that the component renders once the events up to [st] are
    handled: [st] itself and, while the interval runs, the state right
    after the interval's update, which is rendered before the time-out
    effect runs. *)
Definition rendered (st shown : Quiz.State) : Prop :=
  shown = st
  \/ (Quiz.timerRunning st = true /\ shown = Quiz.tickUpdate st).

(** ** Tactics *)

Ltac bool_to_prop :=
  repeat match goal with
    | H : (_ || _) = false |- _ => apply orb_false_iff in H; destruct H
    | H : (_ && _) = true |- _ => apply andb_true_iff in H; destruct H
    | H : (_ =? _) = true |- _ => apply Z.eqb_eq in H
    | H : (_ =? _) = false |- _ => apply Z.eqb_neq in H
    | H : (_ <? _) = true |- _ => apply Z.ltb_lt in H
    | H : (_ <? _) = false |- _ => apply Z.ltb_ge in H
    | H : (_ <=? _) = true |- _ => apply Z.leb_le in H
    | H : (_ <=? _) = false |- _ => apply Z.leb_gt in H
    | H : (_ >? _) = true |- _ => rewrite Z.gtb_ltb in H
    | H : (_ >? _) = false |- _ => rewrite Z.gtb_ltb in H
    | H : (_ >=? _) = true |- _ => rewrite Z.geb_leb in H
    | H : (_ >=? _) = false |- _ => rewrite Z.geb_leb in H
    end.

Ltac split_ifs :=
  repeat match goal with
    | |- context [if ?b then _ else _] => destruct b eqn:?
    end.

(** ** Lists and slices *)

Lemma slice_from_start {A : Type} (l : list A) (n : Z) :
  0 <= n -> slice l 0 n = firstn (Z.to_nat n) l.
Proof.
  intros Hn. unfold slice.
  replace (0 <? 0) with false by reflexivity.
  replace (Z.min 0 (Z.of_nat (List.length l))) with 0 by lia.
  destruct (n <? 0) eqn:E; [apply Z.ltb_lt in E; lia|].
  simpl skipn.
  destruct (Z.min_spec n (Z.of_nat (List.length l))) as [[H1 H2]|[H1 H2]];
    rewrite H2.
  - f_equal. lia.
  - replace (Z.to_nat (Z.max (Z.of_nat (List.length l) - 0) 0))
      with (List.length l) by lia.
    rewrite firstn_all. symmetry. apply firstn_all2. lia.
Qed.

Lemma slice_length {A : Type} (l : list A) (n : Z) :
  0 <= n ->
  List.length (slice l 0 n) = Z.to_nat (Z.min n (Z.of_nat (List.length l))).
Proof.
  intros Hn. rewrite slice_from_start by assumption.
  rewrite length_firstn. lia.
Qed.

Lemma Forall_firstn {A : Type} (P : A -> Prop) (n : nat) (l : list A) :
  Forall P l -> Forall P (firstn n l).
Proof.
  intros H. revert n.
  induction H as [|x l Hx Hl IH]; intros [|n]; simpl; constructor; auto.
Qed.

Lemma Forall_skipn {A : Type} (P : A -> Prop) (n : nat) (l : list A) :
  Forall P l -> Forall P (skipn n l).
Proof.
  intros H. revert n.
  induction H as [|x l Hx Hl IH]; intros [|n]; simpl; auto.
Qed.

Lemma slice_Forall {A : Type} (P : A -> Prop) (l : list A) (a b : Z) :
  Forall P l -> Forall P (slice l a b).
Proof.
  intros H. unfold slice. apply Forall_firstn, Forall_skipn. exact H.
Qed.

Lemma slice_nonempty {A : Type} (x : A) (l : list A) (n : Z) :
  1 <= n -> exists y rest, slice (x :: l) 0 n = y :: rest.
Proof.
  intros Hn. rewrite slice_from_start by lia.
  destruct (Z.to_nat n) as [|k] eqn:E; [lia|].
  simpl. eauto.
Qed.

(** ** The question tables satisfy the Question invariant *)

Lemma distinctb_NoDup (l : list string) : distinctb l = true -> NoDup l.
Proof.
  induction l as [|x l IH]; simpl; intros H.
  - constructor.
  - apply andb_true_iff in H. destruct H as [H1 H2].
    constructor; [|auto].
    intros Hin. apply negb_true_iff in H1.
    assert (existsb (String.eqb x) l = true) as Hex.
    { apply existsb_exists. exists x. split; [exact Hin|apply String.eqb_refl]. }
    congruence.
Qed.

Lemma Question_okb_sound (q : Question) :
  Question_okb q = true -> Question_ok q.
Proof.
  unfold Question_okb, Question_ok. intros H.
  apply andb_true_iff in H. destruct H as [H H3].
  apply andb_true_iff in H. destruct H as [H1 H2].
  repeat split.
  - apply Nat.eqb_eq. exact H1.
  - apply distinctb_NoDup. exact H2.
  - apply Nat.eqb_eq. exact H3.
Qed.

Lemma table_ok (l : list Question) :
  forallb Question_okb l = true -> Forall Question_ok l.
Proof.
  intros H. apply Forall_forall. intros q Hq.
  apply Question_okb_sound.
  rewrite forallb_forall in H. auto.
Qed.

Lemma route_fallback_ok : Forall Question_ok Route.fallbackQuestions.
Proof. apply table_ok. vm_compute. reflexivity. Qed.

Lemma twostage_fallback_ok : Forall Question_ok TwoStage.fallbackQuestions.
Proof. apply table_ok. vm_compute. reflexivity. Qed.

Lemma mockData_ok (key : string) (entries : list Question) :
  MockRoute.mockData_get key = MockRoute.Own entries ->
  Forall Question_ok entries /\ List.length entries = 5%nat.
Proof.
  unfold MockRoute.mockData_get.
  destruct (MockRoute.own_entries MockRoute.mockData key) as [e|] eqn:E.
  - intros H. injection H as <-.
    unfold MockRoute.mockData in E. simpl in E.
    repeat match type of E with
    | (if ?b then _ else _) = _ => destruct b
    end;
    try discriminate;
    injection E as <-; (split; [apply table_ok; vm_compute|]; reflexivity).
  - destruct (existsb _ _); discriminate.
Qed.

Lemma general_knowledge_ok :
  Forall Question_ok MockRoute.general_knowledge /\
  List.length MockRoute.general_knowledge = 5%nat.
Proof.
  split; [apply table_ok; vm_compute|]; reflexivity.
Qed.

(** ** The generation stages *)

Lemma questions_of_nonempty (v : JSValue) (qs : list JSValue) :
  questions_of v = Some qs -> exists q rest, qs = q :: rest.
Proof.
  unfold questions_of. intros H.
  destruct v; try discriminate;
    match type of H with
    | match ?x with _ => _ end = _ => destruct x as [| | | |[|q rest]|]
    end; try discriminate; injection H as <-; eauto.
Qed.

Lemma gemini_stage_nonempty JSON_parse (o : Outcome) (qs : list JSValue) :
  gemini_stage JSON_parse o = Some qs -> exists q rest, qs = q :: rest.
Proof.
  unfold gemini_stage. intros H.
  destruct o as [|[content|]]; try discriminate.
  destruct (content =? "")%string; try discriminate.
  destruct (JSON_parse _) as [v|]; try discriminate.
  eapply questions_of_nonempty; eauto.
Qed.

Lemma openai_stage_nonempty JSON_parse (o : Outcome) (qs : list JSValue) :
  openai_stage JSON_parse o = Some qs -> exists q rest, qs = q :: rest.
Proof.
  unfold openai_stage. intros H.
  destruct o as [|[content|]]; try discriminate.
  destruct (content =? "")%string; try discriminate.
  destruct (JSON_parse _) as [v|]; try discriminate.
  eapply questions_of_nonempty; eauto.
Qed.

(** The source's test on the parsed value is the specification's. *)
Lemma questions_of_spec (v : JSValue) : questions_of v = questions_array v.
Proof.
  destruct v as [| | | | |fields]; try reflexivity.
  unfold questions_of, questions_array.
  destruct (own_property fields "questions") as [w|]; [|reflexivity].
  destruct w as [|b|m e|s|items|fs]; simpl; try reflexivity.
  - destruct b; reflexivity.
  - destruct (m =? 0); reflexivity.
  - destruct (s =? "")%string; reflexivity.
Qed.

(** ** Request validation *)

Lemma present_false (field : option string) :
  present field = false <-> absent_or_empty field.
Proof.
  unfold present, absent_or_empty. destruct field as [s|].
  - rewrite negb_false_iff, String.eqb_eq. split.
    + intros ->. right. reflexivity.
    + intros [H|H]; [discriminate|]. injection H as ->. reflexivity.
  - split; auto.
Qed.

Lemma present_true (field : option string) :
  present field = true <-> ~ absent_or_empty field.
Proof.
  rewrite <- present_false. destruct (present field); split; intros H;
    congruence.
Qed.

Lemma fields_missing_fields (s d : option string) (n : option Z) :
  json_not_null (BodyFields s d n) /\ fields_missing (BodyFields s d n) <->
  negb (present s) || negb (present d) = true.
Proof.
  unfold json_not_null, fields_missing. simpl.
  rewrite orb_true_iff, !negb_true_iff, !present_false.
  split.
  - intros [_ H]. exact H.
  - intros H. repeat split; [discriminate|discriminate|exact H].
Qed.

Lemma unparseable_not_json : ~ (json_not_null BodyUnparseable /\
                                fields_missing BodyUnparseable).
Proof. intros [[H _] _]. apply H. reflexivity. Qed.

Lemma null_not_json : ~ (json_not_null BodyNull /\ fields_missing BodyNull).
Proof. intros [[_ H] _]. apply H. reflexivity. Qed.

Lemma route_well_shaped JSON_parse body gemini :
  well_shaped body (Route.POST JSON_parse body gemini).
Proof.
  unfold well_shaped, Route.POST.
  destruct body as [| |s d n].
  - right. split; [apply unparseable_not_json|eauto].
  - right. split; [apply null_not_json|eauto].
  - destruct (negb (present s) || negb (present d)) eqn:E.
    + left. apply (fields_missing_fields s d n) in E. destruct E as [J M].
      split; [exact J|]. split; [exact M|reflexivity].
    + right. split; [rewrite fields_missing_fields; congruence|].
      repeat match goal with
             | |- context [match ?x with _ => _ end] => destruct x
             end; unfold MockRoute.final_fallback; eauto.
Qed.

Lemma mock_well_shaped JSON_parse body gemini :
  well_shaped body (MockRoute.POST JSON_parse body gemini).
Proof.
  unfold well_shaped, MockRoute.POST.
  destruct body as [| |s d n].
  - right. split; [apply unparseable_not_json|].
    unfold MockRoute.final_fallback. eauto.
  - right. split; [apply null_not_json|].
    unfold MockRoute.final_fallback. eauto.
  - destruct (negb (present s) || negb (present d)) eqn:E.
    + left. apply (fields_missing_fields s d n) in E. destruct E as [J M].
      split; [exact J|]. split; [exact M|reflexivity].
    + right. split; [rewrite fields_missing_fields; congruence|].
      repeat match goal with
             | |- context [match ?x with _ => _ end] => destruct x
             end; unfold MockRoute.final_fallback; eauto.
Qed.

Lemma twostage_well_shaped JSON_parse body openai gemini :
  well_shaped body (TwoStage.POST JSON_parse body openai gemini).
Proof.
  unfold well_shaped, TwoStage.POST.
  destruct body as [| |s d n].
  - right. split; [apply unparseable_not_json|eauto].
  - right. split; [apply null_not_json|eauto].
  - destruct (negb (present s) || negb (present d)) eqn:E.
    + left. apply (fields_missing_fields s d n) in E. destruct E as [J M].
      split; [exact J|]. split; [exact M|reflexivity].
    + right. split; [rewrite fields_missing_fields; congruence|].
      repeat match goal with
             | |- context [match ?x with _ => _ end] => destruct x
             end; unfold MockRoute.final_fallback; eauto.
Qed.

Lemma well_shaped_400 body r :
  well_shaped body r ->
  (rejected r <-> json_not_null body /\ fields_missing body)
  /\ (rejected r \/ served r).
Proof.
  unfold rejected, served.
  intros [(Hj & Hm & ->)|[Hm (qs & src & ->)]]; simpl.
  - split; [|left; repeat split; discriminate].
    split; [intros _; split; assumption|intros _].
    repeat split. discriminate.
  - split; [|right; repeat split; discriminate].
    split; [intros [H _]; discriminate|intros H; contradiction].
Qed.

(** The fallback of route.ts and of the two-stage variant keeps all five
    questions of the list when the count is 10. *)
Lemma slice_five_of_ten (l : list Question) :
  List.length l = 5%nat ->
  slice l 0 (Z.min 10 (Z.of_nat (List.length l))) = l.
Proof.
  intros H. rewrite H.
  destruct l as [|a [|b [|c [|d [|e [|f l]]]]]]; try discriminate.
  reflexivity.
Qed.

(** C4, as stated, fails on the request body [null]: [subject] and
    [difficulty] are absent from it, yet [await request.json()] resolves to
    [null], the destructuring throws, and the outer catch of route.ts
    answers with status 200 and the five fallback questions; the answer is
    no 400, so the stated equivalence is false there. *)
Lemma null_body_is_not_rejected :
  let r := Route.POST Json.parse BodyNull Raised in
  absent_or_empty (subject_of BodyNull)
  /\ absent_or_empty (difficulty_of BodyNull)
  /\ status r = 200
  /\ error r = None
  /\ carries r Route.fallbackQuestions
  /\ ~ (rejected r <-> fields_missing BodyNull).
Proof.
  simpl. repeat split; try (left; reflexivity).
  intros [_ H].
  assert (M : fields_missing BodyNull) by (left; left; reflexivity).
  destruct (H M) as [E _]. discriminate E.
Qed.

(** C4 (amended). The handler answers 400, with an [error] field and
    without a [questions] field, if and only if the request body is JSON
    other than [null] and [subject] or [difficulty] is absent or empty in
    it; every other answer has status 200 and a [questions] field.  A
    [null] body is answered with status 200 and the five hard-coded
    questions.  The default of [numberOfQuestions] is 10, a count that is
    given is used as it is: a body without [numberOfQuestions] is answered
    as the same body with [numberOfQuestions: 10], and when generation
    fails it gets all five questions of the fallback list.  This holds for
    the three variants of the route, whatever the generation services
    do. *)
Theorem bad_request_iff_missing_field
  (JSON_parse : string -> option JSValue) (body : Body)
  (openai gemini : Outcome) (s d : option string) :
  let rejected_iff_missing r :=
    (rejected r <-> json_not_null body /\ fields_missing body)
    /\ (rejected r \/ served r) in
  let null_served r (five : list Question) :=
    status r = 200 /\ error r = None /\ carries r five
    /\ List.length five = 5%nat in
  rejected_iff_missing (Route.POST JSON_parse body gemini)
  /\ rejected_iff_missing (MockRoute.POST JSON_parse body gemini)
  /\ rejected_iff_missing (TwoStage.POST JSON_parse body openai gemini)
  /\ null_served (Route.POST JSON_parse BodyNull gemini)
       Route.fallbackQuestions
  /\ null_served (MockRoute.POST JSON_parse BodyNull gemini)
       MockRoute.general_knowledge
  /\ null_served (TwoStage.POST JSON_parse BodyNull openai gemini)
       TwoStage.fallbackQuestions
  /\ with_default None = 10
  /\ (forall n, with_default (Some n) = n)
  /\ Route.POST JSON_parse (BodyFields s d None) gemini
     = Route.POST JSON_parse (BodyFields s d (Some 10)) gemini
  /\ MockRoute.POST JSON_parse (BodyFields s d None) gemini
     = MockRoute.POST JSON_parse (BodyFields s d (Some 10)) gemini
  /\ TwoStage.POST JSON_parse (BodyFields s d None) openai gemini
     = TwoStage.POST JSON_parse (BodyFields s d (Some 10)) openai gemini
  /\ (present s = true -> present d = true ->
      gemini_stage JSON_parse gemini = None ->
      carries (Route.POST JSON_parse (BodyFields s d None) gemini)
        Route.fallbackQuestions
      /\ (openai_stage JSON_parse openai = None ->
          carries (TwoStage.POST JSON_parse (BodyFields s d None)
                     openai gemini)
            TwoStage.fallbackQuestions)).
Proof.
  intros rejected_iff_missing null_served.
  unfold rejected_iff_missing, null_served.
  split; [|split; [|split]].
  - apply well_shaped_400, route_well_shaped.
  - apply well_shaped_400, mock_well_shaped.
  - apply well_shaped_400, twostage_well_shaped.
  - split; [repeat split|]. split; [repeat split|]. split; [repeat split|].
    split; [reflexivity|]. split; [reflexivity|].
    split; [reflexivity|]. split; [reflexivity|]. split; [reflexivity|].
    intros Hs Hd Hg. unfold carries, Route.POST, TwoStage.POST.
    rewrite Hs, Hd, Hg. simpl negb. simpl orb. cbv iota.
    split.
    + unfold with_default.
      rewrite (slice_five_of_ten Route.fallbackQuestions eq_refl).
      reflexivity.
    + intros Ho. rewrite Ho. unfold with_default.
      rewrite (slice_five_of_ten TwoStage.fallbackQuestions eq_refl).
      reflexivity.
Qed.

Lemma bad_request_iff_missing_field_witness :
  let body := BodyFields (Some "History") (Some "Easy") None in
  present (Some "History") = true
  /\ present (Some "Easy") = true
  /\ gemini_stage Json.parse Raised = None
  /\ openai_stage Json.parse Raised = None
  /\ ~ rejected (Route.POST Json.parse body Raised)
  /\ carries (Route.POST Json.parse body Raised) Route.fallbackQuestions
  /\ carries (TwoStage.POST Json.parse body Raised Raised)
       TwoStage.fallbackQuestions.
Proof.
  intros body.
  destruct (bad_request_iff_missing_field Json.parse body Raised Raised
              (Some "History") (Some "Easy"))
    as ([R _] & _ & _ & _ & _ & _ & _ & _ & _ & _ & _ & D).
  destruct (D eq_refl eq_refl eq_refl) as [D1 D2].
  split; [reflexivity|]. split; [reflexivity|].
  split; [reflexivity|]. split; [reflexivity|].
  split; [|split; [exact D1|exact (D2 eq_refl)]].
  intros H. apply R in H. destruct H as [_ [[H|H]|[H|H]]]; discriminate H.
Defined.

(** C10. A request body that is not JSON at all is answered with status
    200, the five hard-coded questions and the source tag of the outer
    catch: ["error-fallback"] in route.ts and in the two-stage variant,
    ["fallback"] (over the General Knowledge table) in the mock-data
    variant. *)
Theorem unparseable_body_gets_fallback
  (JSON_parse : string -> option JSValue) (openai gemini : Outcome) :
  (let r := Route.POST JSON_parse BodyUnparseable gemini in
   status r = 200 /\ error r = None /\
   carries r Route.fallbackQuestions /\
   List.length Route.fallbackQuestions = 5%nat /\
   source r = Some "error-fallback")
  /\ (let r := TwoStage.POST JSON_parse BodyUnparseable openai gemini in
      status r = 200 /\ error r = None /\
      carries r TwoStage.fallbackQuestions /\
      List.length TwoStage.fallbackQuestions = 5%nat /\
      source r = Some "error-fallback")
  /\ (let r := MockRoute.POST JSON_parse BodyUnparseable gemini in
      status r = 200 /\ error r = None /\
      carries r MockRoute.general_knowledge /\
      List.length MockRoute.general_knowledge = 5%nat /\
      source r = Some "fallback").
Proof.
  repeat split.
Qed.

(** ** Responses to well-formed requests *)

Lemma present_nonempty (s : string) : s <> "" -> present (Some s) = true.
Proof.
  intros H. unfold present. apply negb_true_iff, String.eqb_neq. exact H.
Qed.

Lemma nonempty_json_ok (qs : list JSValue) (src : option string) :
  (exists q rest, qs = q :: rest) -> nonempty_questions (json_ok qs src).
Proof. intros (q & rest & ->). exists q, rest. reflexivity. Qed.

Lemma nonempty_slice (l : list Question) (n : Z) (src : option string) :
  List.length l = 5%nat -> 1 <= n ->
  nonempty_questions (json_ok (map question_to_js (slice l 0 n)) src).
Proof.
  intros Hl Hn. destruct l as [|x l]; [discriminate|].
  destruct (slice_nonempty x l n Hn) as (y & rest & ->).
  apply nonempty_json_ok. simpl. eauto.
Qed.

Lemma route_valid JSON_parse subject difficulty n gemini :
  subject <> "" -> difficulty <> "" ->
  Route.POST JSON_parse (BodyFields (Some subject) (Some difficulty) n) gemini
  = match gemini_stage JSON_parse gemini with
    | Some qs => json_ok qs None
    | None =>
        json_ok
          (map question_to_js
             (slice Route.fallbackQuestions 0 (Z.min (with_default n) 5)))
          (Some "fallback")
    end.
Proof.
  intros Hs Hd. unfold Route.POST.
  rewrite (present_nonempty _ Hs), (present_nonempty _ Hd). reflexivity.
Qed.

Lemma twostage_valid JSON_parse subject difficulty n openai gemini :
  subject <> "" -> difficulty <> "" ->
  TwoStage.POST JSON_parse (BodyFields (Some subject) (Some difficulty) n)
    openai gemini
  = match openai_stage JSON_parse openai with
    | Some qs => json_ok qs (Some "openai")
    | None =>
        match gemini_stage JSON_parse gemini with
        | Some qs => json_ok qs (Some "gemini")
        | None =>
            json_ok
              (map question_to_js
                 (slice TwoStage.fallbackQuestions 0
                    (Z.min (with_default n) 5)))
              (Some "fallback")
        end
    end.
Proof.
  intros Hs Hd. unfold TwoStage.POST.
  rewrite (present_nonempty _ Hs), (present_nonempty _ Hd). reflexivity.
Qed.

Lemma mock_valid JSON_parse subject difficulty n gemini :
  subject <> "" -> difficulty <> "" ->
  MockRoute.POST JSON_parse (BodyFields (Some subject) (Some difficulty) n)
    gemini
  = match gemini_stage JSON_parse gemini with
    | Some qs => json_ok qs None
    | None =>
        match MockRoute.mockData_get subject with
        | MockRoute.Own entries =>
            json_ok (map question_to_js (slice entries 0 (with_default n)))
              (Some "mock")
        | MockRoute.Undefined =>
            json_ok
              (map question_to_js
                 (slice MockRoute.general_knowledge 0 (with_default n)))
              (Some "mock")
        | MockRoute.Inherited => MockRoute.final_fallback
        end
    end.
Proof.
  intros Hs Hd. unfold MockRoute.POST.
  rewrite (present_nonempty _ Hs), (present_nonempty _ Hd). reflexivity.
Qed.

(** C1 (amended). For every request with a non-empty subject and
    difficulty the status is 200 whatever the generation stages do, in the
    three variants; the questions array is non-empty when numberOfQuestions
    is absent or at least 1. *)
Theorem valid_request_always_served
  (JSON_parse : string -> option JSValue) (subject difficulty : string)
  (n : option Z) (openai gemini : Outcome) :
  subject <> "" -> difficulty <> "" ->
  let body := BodyFields (Some subject) (Some difficulty) n in
  (status (Route.POST JSON_parse body gemini) = 200
   /\ status (MockRoute.POST JSON_parse body gemini) = 200
   /\ status (TwoStage.POST JSON_parse body openai gemini) = 200)
  /\ (1 <= with_default n ->
      nonempty_questions (Route.POST JSON_parse body gemini)
      /\ nonempty_questions (MockRoute.POST JSON_parse body gemini)
      /\ nonempty_questions (TwoStage.POST JSON_parse body openai gemini)).
Proof.
  intros Hs Hd body. unfold body.
  rewrite route_valid, mock_valid, twostage_valid by assumption.
  split.
  - repeat split;
      repeat match goal with
             | |- context [match ?x with _ => _ end] => destruct x
             end; reflexivity.
  - intros Hn.
    assert (Hg : forall qs src, gemini_stage JSON_parse gemini = Some qs ->
                                nonempty_questions (json_ok qs src)).
    { intros qs src H. apply nonempty_json_ok.
      eapply gemini_stage_nonempty; eauto. }
    repeat split.
    + destruct (gemini_stage JSON_parse gemini) eqn:G; [eauto|].
      apply nonempty_slice; [reflexivity|lia].
    + destruct (gemini_stage JSON_parse gemini) eqn:G; [eauto|].
      destruct (MockRoute.mockData_get subject) as [entries| |] eqn:M.
      * apply nonempty_slice; [|lia]. eapply mockData_ok; eauto.
      * exists (question_to_js (mkQuestion
                 "Which is the largest ocean on Earth?"
                 ["Pacific Ocean"; "Atlantic Ocean"; "Indian Ocean";
                  "Arctic Ocean"] "Pacific Ocean")).
        eexists. reflexivity.
      * apply nonempty_slice; [|lia]. apply general_knowledge_ok.
    + destruct (openai_stage JSON_parse openai) eqn:O.
      { apply nonempty_json_ok. eapply openai_stage_nonempty; eauto. }
      destruct (gemini_stage JSON_parse gemini) eqn:G; [eauto|].
      apply nonempty_slice; [reflexivity|lia].
Qed.

Lemma valid_request_always_served_witness :
  let body := BodyFields (Some "History") (Some "Easy") (Some 3) in
  (status (Route.POST Json.parse body Raised) = 200
   /\ status (MockRoute.POST Json.parse body Raised) = 200
   /\ status (TwoStage.POST Json.parse body Raised Raised) = 200)
  /\ (nonempty_questions (Route.POST Json.parse body Raised)
      /\ nonempty_questions (MockRoute.POST Json.parse body Raised)
      /\ nonempty_questions (TwoStage.POST Json.parse body Raised Raised)).
Proof.
  destruct (valid_request_always_served Json.parse "History" "Easy" (Some 3)
              Raised Raised) as [Hstatus Hnonempty];
    [discriminate|discriminate|].
  split; [exact Hstatus|]. apply Hnonempty. simpl. lia.
Defined.

(** C1 as stated fails: with numberOfQuestions 0 and the generation stage
    throwing, route.ts answers 200 with an empty questions array. *)
Lemma zero_questions_requested_empty_quiz :
  let r := Route.POST Json.parse
             (BodyFields (Some "History") (Some "Easy") (Some 0)) Raised in
  status r = 200 /\ questions r = Some [] /\ ~ nonempty_questions r.
Proof.
  repeat split. intros (q & rest & H). discriminate.
Qed.

(** C6 (amended). In the two-stage variant, when the primary stage fails
    (it throws, or its content does not pass), the response is that of the
    secondary stage with source ["gemini"], or the head of the fallback list
    with source ["fallback"]; it is never tagged ["openai"], and it is
    non-empty when numberOfQuestions is absent or at least 1. *)
Theorem primary_failure_falls_through
  (JSON_parse : string -> option JSValue) (subject difficulty : string)
  (n : option Z) (openai gemini : Outcome) :
  subject <> "" -> difficulty <> "" ->
  openai_stage JSON_parse openai = None ->
  let r := TwoStage.POST JSON_parse
             (BodyFields (Some subject) (Some difficulty) n) openai gemini in
  status r = 200
  /\ ((exists qs, gemini_stage JSON_parse gemini = Some qs
                  /\ questions r = Some qs /\ source r = Some "gemini")
      \/ (gemini_stage JSON_parse gemini = None
          /\ carries r (slice TwoStage.fallbackQuestions 0
                          (Z.min (with_default n) 5))
          /\ source r = Some "fallback"))
  /\ source r <> Some "openai"
  /\ (1 <= with_default n -> nonempty_questions r).
Proof.
  intros Hs Hd Ho r. unfold r.
  rewrite twostage_valid by assumption. rewrite Ho.
  destruct (gemini_stage JSON_parse gemini) as [qs|] eqn:G.
  - repeat split.
    + left. exists qs. repeat split.
    + discriminate.
    + intros _. apply nonempty_json_ok. eapply gemini_stage_nonempty; eauto.
  - repeat split.
    + right. repeat split.
    + discriminate.
    + intros Hn. apply nonempty_slice; [reflexivity|lia].
Qed.

Lemma primary_failure_falls_through_witness :
  let r := TwoStage.POST Json.parse
             (BodyFields (Some "Science") (Some "Hard") None) Raised
             (Returned (Some fenced_text)) in
  status r = 200
  /\ ((exists qs, gemini_stage Json.parse (Returned (Some fenced_text))
                  = Some qs
                  /\ questions r = Some qs /\ source r = Some "gemini")
      \/ (gemini_stage Json.parse (Returned (Some fenced_text)) = None
          /\ carries r (slice TwoStage.fallbackQuestions 0
                          (Z.min (with_default None) 5))
          /\ source r = Some "fallback"))
  /\ source r <> Some "openai"
  /\ nonempty_questions r.
Proof.
  destruct (primary_failure_falls_through Json.parse "Science" "Hard" None
              Raised (Returned (Some fenced_text)))
    as (Hstatus & Hfrom & Hsource & Hnonempty);
    [discriminate|discriminate|reflexivity|].
  repeat split; [exact Hfrom|exact Hsource|]. apply Hnonempty. simpl. lia.
Defined.

(** C6 as stated fails: with numberOfQuestions 0 and both stages throwing,
    the two-stage variant answers with an empty questions array. *)
Lemma twostage_zero_questions_empty :
  let r := TwoStage.POST Json.parse
             (BodyFields (Some "Science") (Some "Hard") (Some 0))
             Raised Raised in
  source r = Some "fallback" /\ ~ nonempty_questions r.
Proof.
  split; [reflexivity|]. intros (q & rest & H). discriminate.
Qed.

(** ** The fallback tables *)

Lemma carried_slice (l : list Question) (count : Z) (src : option string) :
  Forall Question_ok l -> List.length l = 5%nat -> 0 <= count ->
  exists qs,
    carries (json_ok (map question_to_js (slice l 0 count)) src) qs
    /\ List.length qs = Z.to_nat (Z.min count 5)
    /\ Forall Question_ok qs.
Proof.
  intros Hok Hlen Hc. exists (slice l 0 count). repeat split.
  - rewrite slice_length by assumption. rewrite Hlen. reflexivity.
  - apply slice_Forall. exact Hok.
Qed.

Lemma min_min_5 (count : Z) : Z.min (Z.min count 5) 5 = Z.min count 5.
Proof. lia. Qed.

Lemma carried_limited_slice (l : list Question) (count : Z)
  (src : option string) :
  Forall Question_ok l -> List.length l = 5%nat -> 0 <= count ->
  exists qs,
    carries (json_ok (map question_to_js (slice l 0 (Z.min count 5))) src) qs
    /\ List.length qs = Z.to_nat (Z.min count 5)
    /\ Forall Question_ok qs.
Proof.
  intros Hok Hlen Hc.
  destruct (carried_slice l (Z.min count 5) src Hok Hlen) as (qs & H1 & H2 & H3);
    [lia|].
  exists qs. rewrite min_min_5 in H2. auto.
Qed.

(** C2 (amended). For a valid request (non-empty subject and difficulty,
    count at least 1): when every generation stage fails, the response
    carries exactly min(count, 5) questions of the fallback table, each
    satisfying the Question invariant (in the mock-data variant, for a
    subject that is no property name of Object.prototype); when a stage
    succeeds, the response carries the array that stage produced, as it
    is. *)
Theorem fallback_questions_well_formed
  (JSON_parse : string -> option JSValue) (subject difficulty : string)
  (n : option Z) (openai gemini : Outcome) :
  subject <> "" -> difficulty <> "" -> 1 <= with_default n ->
  let body := BodyFields (Some subject) (Some difficulty) n in
  let count := with_default n in
  let well_formed r :=
    exists qs, carries r qs
               /\ List.length qs = Z.to_nat (Z.min count 5)
               /\ Forall Question_ok qs in
  (gemini_stage JSON_parse gemini = None ->
   well_formed (Route.POST JSON_parse body gemini)
   /\ (MockRoute.mockData_get subject <> MockRoute.Inherited ->
       well_formed (MockRoute.POST JSON_parse body gemini))
   /\ (openai_stage JSON_parse openai = None ->
       well_formed (TwoStage.POST JSON_parse body openai gemini)))
  /\ (forall qs, gemini_stage JSON_parse gemini = Some qs ->
      questions (Route.POST JSON_parse body gemini) = Some qs
      /\ questions (MockRoute.POST JSON_parse body gemini) = Some qs
      /\ (openai_stage JSON_parse openai = None ->
          questions (TwoStage.POST JSON_parse body openai gemini) = Some qs))
  /\ (forall qs, openai_stage JSON_parse openai = Some qs ->
      questions (TwoStage.POST JSON_parse body openai gemini) = Some qs).
Proof.
  intros Hs Hd Hn body count well_formed. unfold body, well_formed, count.
  rewrite route_valid, mock_valid, twostage_valid by assumption.
  split; [|split].
  - intros Hg. rewrite Hg. split; [|split].
    + apply carried_limited_slice;
        [apply route_fallback_ok|reflexivity|lia].
    + intros Hk.
      destruct (MockRoute.mockData_get subject) as [entries| |] eqn:M.
      * destruct (mockData_ok _ _ M) as [Hok Hlen].
        apply carried_slice; [assumption|assumption|lia].
      * contradiction.
      * destruct general_knowledge_ok as [Hok Hlen].
        apply carried_slice; [assumption|assumption|lia].
    + intros Ho. rewrite Ho. apply carried_limited_slice;
        [apply twostage_fallback_ok|reflexivity|lia].
  - intros qs Hg. rewrite Hg. split; [|split]; try reflexivity.
    intros Ho. rewrite Ho. reflexivity.
  - intros qs Ho. rewrite Ho. reflexivity.
Qed.

Lemma fallback_questions_well_formed_witness :
  let body := BodyFields (Some "Mathematics") (Some "Easy") (Some 2) in
  let well_formed r :=
    exists qs, carries r qs
               /\ List.length qs = 2%nat
               /\ Forall Question_ok qs in
  well_formed (Route.POST Json.parse body Raised)
  /\ well_formed (MockRoute.POST Json.parse body Raised)
  /\ well_formed (TwoStage.POST Json.parse body Raised Raised).
Proof.
  destruct (fallback_questions_well_formed Json.parse "Mathematics" "Easy"
              (Some 2) Raised Raised) as [Hfallback _];
    [discriminate|discriminate|simpl; lia|].
  destruct (Hfallback eq_refl) as (Hroute & Hmock & Htwo).
  split; [exact Hroute|]. split.
  - apply Hmock. discriminate.
  - apply Htwo. reflexivity.
Defined.

(** C2 as stated fails on the path where the service succeeds: asked for
    one question, with a service text whose questions array is [[1,2]],
    route.ts returns both elements, and neither is a question. *)
Lemma service_array_returned_unchecked :
  let r := Route.POST Json.parse
             (BodyFields (Some "History") (Some "Easy") (Some 1))
             (Returned (Some two_numbers_text)) in
  questions r = Some [JNum 1 0; JNum 2 0]
  /\ ~ (exists qs, carries r qs /\ List.length qs = 1%nat
                   /\ Forall Question_ok qs).
Proof.
  split; [reflexivity|].
  intros (qs & H & _).
  assert (E : Some [JNum 1 0; JNum 2 0] = Some (map question_to_js qs))
    by exact H.
  destruct qs as [|q qs]; discriminate.
Qed.

(** C3 (amended). When the generation stage fails: the mock-data variant
    takes the table entry keyed by the subject, the General Knowledge entry
    when the subject is no key of the table (nor a property name of
    Object.prototype), and keeps the first [count] questions; for
    [{subject:"History", difficulty:"Easy", numberOfQuestions:3}] these are
    the first three History questions, with status 200.  route.ts and the
    two-stage variant keep the first min(count, 5) questions of one fixed
    list, whatever the subject. *)
Theorem fallback_table_selection
  (JSON_parse : string -> option JSValue) (subject difficulty : string)
  (n : option Z) (openai gemini : Outcome) :
  subject <> "" -> difficulty <> "" ->
  gemini_stage JSON_parse gemini = None ->
  0 <= with_default n ->
  let body := BodyFields (Some subject) (Some difficulty) n in
  let count := Z.to_nat (with_default n) in
  (forall entries,
      MockRoute.mockData_get subject = MockRoute.Own entries ->
      MockRoute.POST JSON_parse body gemini
      = json_ok (map question_to_js (firstn count entries)) (Some "mock"))
  /\ (MockRoute.mockData_get subject = MockRoute.Undefined ->
      MockRoute.POST JSON_parse body gemini
      = json_ok (map question_to_js (firstn count MockRoute.general_knowledge))
          (Some "mock"))
  /\ (let r := MockRoute.POST JSON_parse
                 (BodyFields (Some "History") (Some difficulty) (Some 3))
                 gemini in
      status r = 200 /\ carries r (firstn 3 history_table)
      /\ List.length (firstn 3 history_table) = 3%nat)
  /\ Route.POST JSON_parse body gemini
     = json_ok
         (map question_to_js
            (firstn (Nat.min count 5) Route.fallbackQuestions))
         (Some "fallback")
  /\ (openai_stage JSON_parse openai = None ->
      TwoStage.POST JSON_parse body openai gemini
      = json_ok
          (map question_to_js
             (firstn (Nat.min count 5) TwoStage.fallbackQuestions))
          (Some "fallback")).
Proof.
  intros Hs Hd Hg Hn body count. unfold body, count.
  rewrite route_valid, twostage_valid by assumption.
  rewrite !mock_valid by (assumption || discriminate).
  rewrite Hg.
  assert (Hmin : Z.to_nat (Z.min (with_default n) 5)
                 = Nat.min (Z.to_nat (with_default n)) 5) by lia.
  split; [|split; [|split; [|split]]].
  - intros entries ->. rewrite slice_from_start by assumption. reflexivity.
  - intros ->. rewrite slice_from_start by assumption. reflexivity.
  - repeat split.
  - rewrite slice_from_start by lia. rewrite Hmin. reflexivity.
  - intros ->. rewrite slice_from_start by lia. rewrite Hmin. reflexivity.
Qed.

Lemma fallback_table_selection_witness :
  let body := BodyFields (Some "Geography") (Some "Easy") (Some 3) in
  MockRoute.POST Json.parse body Raised
  = json_ok (map question_to_js (firstn 3 MockRoute.general_knowledge))
      (Some "mock")
  /\ (let r := MockRoute.POST Json.parse
                 (BodyFields (Some "History") (Some "Easy") (Some 3))
                 Raised in
      status r = 200 /\ carries r (firstn 3 history_table)
      /\ List.length (firstn 3 history_table) = 3%nat)
  /\ Route.POST Json.parse body Raised
     = json_ok (map question_to_js (firstn 3 Route.fallbackQuestions))
         (Some "fallback")
  /\ TwoStage.POST Json.parse body Raised Raised
     = json_ok (map question_to_js (firstn 3 TwoStage.fallbackQuestions))
         (Some "fallback").
Proof.
  destruct (fallback_table_selection Json.parse "Geography" "Easy" (Some 3)
              Raised Raised)
    as (_ & Hdefault & Hhistory & Hroute & Htwo);
    [discriminate|discriminate|reflexivity|simpl; lia|].
  split; [apply Hdefault; reflexivity|].
  split; [exact Hhistory|].
  split; [exact Hroute|apply Htwo; reflexivity].
Defined.

(** C3 as stated fails for route.ts: the History request with the service
    failing is answered with three questions of the single fallback list
    (gold, the Red Planet, photosynthesis), none of them a History
    question. *)
Lemma history_request_gets_science_questions :
  let r := Route.POST Json.parse
             (BodyFields (Some "History") (Some "Easy") (Some 3)) Raised in
  status r = 200
  /\ carries r (firstn 3 Route.fallbackQuestions)
  /\ ~ (exists qs, carries r qs /\ incl qs history_table).
Proof.
  repeat split.
  intros (qs & H & Hin).
  assert (E : Some (map question_to_js (firstn 3 Route.fallbackQuestions))
              = Some (map question_to_js qs)) by exact H.
  destruct qs as [|q qs]; [discriminate|].
  assert (Hq : In q history_table) by (apply Hin; left; reflexivity).
  destruct q as [text opts answer].
  injection E as E _ _.
  rewrite <- E in Hq. simpl in Hq.
  repeat (destruct Hq as [Hq|Hq]; [discriminate|]).
  exact Hq.
Qed.

(** ** Cleaning and parsing the text of a stage *)

Lemma gemini_stage_spec JSON_parse (content : string) :
  JSON_parse "" = None ->
  gemini_stage JSON_parse (Returned (Some content))
  = spec_stage JSON_parse content.
Proof.
  intros Hempty. unfold gemini_stage, spec_stage.
  destruct (content =? "")%string eqn:E.
  - apply String.eqb_eq in E. subst content.
    change (trim (replace_fences 0 "")) with "".
    rewrite Hempty. reflexivity.
  - destruct (JSON_parse (trim _)); [apply questions_of_spec|reflexivity].
Qed.

Lemma openai_stage_spec JSON_parse (content : string) :
  JSON_parse "" = None ->
  openai_stage JSON_parse (Returned (Some content))
  = spec_stage_raw JSON_parse content.
Proof.
  intros Hempty. unfold openai_stage, spec_stage_raw.
  destruct (content =? "")%string eqn:E.
  - apply String.eqb_eq in E. subst content. rewrite Hempty. reflexivity.
  - destruct (JSON_parse content); [apply questions_of_spec|reflexivity].
Qed.

Lemma route_depends_on_stage JSON_parse body g1 g2 :
  gemini_stage JSON_parse g1 = gemini_stage JSON_parse g2 ->
  Route.POST JSON_parse body g1 = Route.POST JSON_parse body g2.
Proof. intros H. unfold Route.POST. rewrite H. reflexivity. Qed.

Lemma mock_depends_on_stage JSON_parse body g1 g2 :
  gemini_stage JSON_parse g1 = gemini_stage JSON_parse g2 ->
  MockRoute.POST JSON_parse body g1 = MockRoute.POST JSON_parse body g2.
Proof. intros H. unfold MockRoute.POST. rewrite H. reflexivity. Qed.

Lemma twostage_depends_on_stages JSON_parse body o1 o2 g1 g2 :
  openai_stage JSON_parse o1 = openai_stage JSON_parse o2 ->
  gemini_stage JSON_parse g1 = gemini_stage JSON_parse g2 ->
  TwoStage.POST JSON_parse body o1 g1 = TwoStage.POST JSON_parse body o2 g2.
Proof. intros H1 H2. unfold TwoStage.POST. rewrite H1, H2. reflexivity. Qed.

(** C5 (amended). A Gemini stage (the only stage of route.ts and of the
    mock-data variant, the secondary stage of the two-stage variant) strips
    the code-fence markers from the raw text, parses the remainder, and
    fails exactly when parsing fails or the parsed value has no non-empty
    questions array; the OpenAI stage of the two-stage variant does the
    same on the raw text, without stripping.  A stage whose text fails in
    this way is answered like a stage that throws, and a stage whose text
    passes is answered with its questions array. *)
Theorem stage_text_handling (JSON_parse : string -> option JSValue) :
  JSON_parse "" = None ->
  forall (content : string),
    gemini_stage JSON_parse (Returned (Some content))
    = spec_stage JSON_parse content
    /\ openai_stage JSON_parse (Returned (Some content))
       = spec_stage_raw JSON_parse content
    /\ (forall body openai gemini,
           (spec_stage JSON_parse content = None ->
            Route.POST JSON_parse body (Returned (Some content))
            = Route.POST JSON_parse body Raised
            /\ MockRoute.POST JSON_parse body (Returned (Some content))
               = MockRoute.POST JSON_parse body Raised
            /\ TwoStage.POST JSON_parse body openai (Returned (Some content))
               = TwoStage.POST JSON_parse body openai Raised)
           /\ (spec_stage_raw JSON_parse content = None ->
               TwoStage.POST JSON_parse body (Returned (Some content)) gemini
               = TwoStage.POST JSON_parse body Raised gemini))
    /\ (forall subject difficulty n qs,
           subject <> "" -> difficulty <> "" ->
           let body := BodyFields (Some subject) (Some difficulty) n in
           (spec_stage JSON_parse content = Some qs ->
            Route.POST JSON_parse body (Returned (Some content))
            = json_ok qs None
            /\ MockRoute.POST JSON_parse body (Returned (Some content))
               = json_ok qs None
            /\ TwoStage.POST JSON_parse body Raised (Returned (Some content))
               = json_ok qs (Some "gemini"))
           /\ (forall gemini,
                  spec_stage_raw JSON_parse content = Some qs ->
                  TwoStage.POST JSON_parse body (Returned (Some content))
                    gemini
                  = json_ok qs (Some "openai"))).
Proof.
  intros Hempty content.
  pose proof (gemini_stage_spec JSON_parse content Hempty) as Hg.
  pose proof (openai_stage_spec JSON_parse content Hempty) as Ho.
  split; [exact Hg|]. split; [exact Ho|]. split.
  - intros body openai gemini. split.
    + intros Hfail. rewrite <- Hg in Hfail. split; [|split].
      * apply route_depends_on_stage. exact Hfail.
      * apply mock_depends_on_stage. exact Hfail.
      * apply twostage_depends_on_stages; [reflexivity|exact Hfail].
    + intros Hfail. rewrite <- Ho in Hfail.
      apply twostage_depends_on_stages; [exact Hfail|reflexivity].
  - intros subject difficulty n qs Hs Hd body. unfold body. split.
    + intros Hpass. rewrite <- Hg in Hpass.
      rewrite route_valid, mock_valid, twostage_valid by assumption.
      rewrite Hpass. repeat split.
    + intros gemini Hpass. rewrite <- Ho in Hpass.
      rewrite twostage_valid by assumption.
      rewrite Hpass. reflexivity.
Qed.

Lemma stage_text_handling_witness :
  Json.parse "" = None
  /\ gemini_stage Json.parse (Returned (Some fenced_text))
     = spec_stage Json.parse fenced_text
  /\ openai_stage Json.parse (Returned (Some fenced_text))
     = spec_stage_raw Json.parse fenced_text.
Proof.
  split; [reflexivity|].
  destruct (stage_text_handling Json.parse eq_refl fenced_text)
    as (Hg & Ho & _).
  split; [exact Hg|exact Ho].
Defined.

(** C5 as stated fails for the primary stage of the two-stage variant: a
    text whose stripped remainder parses to an object with the non-empty
    questions array [[1]] is treated as a failed stage, and the request is
    answered by the next stage. *)
Lemma openai_stage_keeps_fences :
  spec_stage Json.parse fenced_text = Some [JNum 1 0]
  /\ openai_stage Json.parse (Returned (Some fenced_text)) = None
  /\ ~ (openai_stage Json.parse (Returned (Some fenced_text)) = None
        <-> spec_stage Json.parse fenced_text = None)
  /\ TwoStage.POST Json.parse
       (BodyFields (Some "History") (Some "Easy") (Some 3))
       (Returned (Some fenced_text)) Raised
     = TwoStage.POST Json.parse
         (BodyFields (Some "History") (Some "Easy") (Some 3)) Raised Raised.
Proof.
  split; [reflexivity|]. split; [reflexivity|]. split; [|reflexivity].
  intros [H _].
  assert (E : spec_stage Json.parse fenced_text = Some [JNum 1 0])
    by reflexivity.
  rewrite H in E; [discriminate|reflexivity].
Qed.

(** ** The quiz controller *)

Module QuizProofs.
Import Quiz.

Lemma Inv_initial (quizQuestions : list Question) :
  quizQuestions <> [] -> Inv quizQuestions (initial quizQuestions).
Proof.
  intros H. unfold Inv, initial, tally, TIME_LIMIT. simpl.
  destruct quizQuestions; [contradiction|]. simpl List.length. lia.
Qed.

Lemma Inv_step (quizQuestions : list Question) (st st' : State) (ev : Event) :
  Inv quizQuestions st -> step quizQuestions st ev = Some st' ->
  Inv quizQuestions st'.
Proof.
  destruct st as [tp aq sel fin ic [c w s] tr].
  unfold Inv, step, tally. simpl. intros (Ha & Ht & Hs & Hc) H.
  destruct (fin || _) eqn:G; [discriminate|].
  bool_to_prop. subst fin.
  destruct (sel =? -1) eqn:S;
    (destruct ev as [|answerIndex|];
     [ destruct tr; [|discriminate]; injection H as <-;
       unfold timeEffect, handleNextQuestion
     | destruct (option_clickable quizQuestions _ answerIndex) eqn:C;
       [|discriminate];
       unfold option_clickable in C; unfold handleSelectAnswer in H;
       simpl in *;
       destruct (index quizQuestions aq) as [q|]; [|discriminate];
       destruct (match index (options q) answerIndex with
                 | Some a => (correctAnswer q =? a)%string
                 | None => false
                 end);
       injection H as <-
     | simpl in H; rewrite ?S in H; try discriminate;
       injection H as <-; unfold handleNextQuestion ]);
    repeat (split_ifs; simpl in *; unfold TIME_LIMIT in *; bool_to_prop);
    first [congruence | lia].
Qed.

Lemma Inv_run (quizQuestions : list Question) (evs : list Event)
  (st st' : State) :
  Inv quizQuestions st -> run quizQuestions st evs = Some st' ->
  Inv quizQuestions st'.
Proof.
  revert st. induction evs as [|ev evs IH]; simpl; intros st HI H.
  - injection H as <-. exact HI.
  - destruct (step quizQuestions st ev) as [st1|] eqn:E; [|discriminate].
    eapply IH; [|exact H]. eapply Inv_step; eauto.
Qed.

Lemma run_without_questions (evs : list Event) (st : State) :
  run [] (initial []) evs = Some st -> st = initial [].
Proof.
  destruct evs as [|ev evs]; simpl; intros H.
  - injection H as <-. reflexivity.
  - discriminate.
Qed.

Lemma reachable_Inv (quizQuestions : list Question) (evs : list Event)
  (st : State) :
  quizQuestions <> [] ->
  run quizQuestions (initial quizQuestions) evs = Some st ->
  Inv quizQuestions st.
Proof.
  intros Hne H. eapply Inv_run; [|exact H]. apply Inv_initial. exact Hne.
Qed.

(** C7. In every state a quiz session over [n] questions reaches, the
    seconds used are at most [n * TIME_LIMIT]; once the session is
    finished, the correct and the wrong answers add up to [n]. *)
Theorem finished_quiz_tally (quizQuestions : list Question)
  (evs : list Event) (st : State) :
  run quizQuestions (initial quizQuestions) evs = Some st ->
  let n := Z.of_nat (List.length quizQuestions) in
  secondsUsed (results st) <= n * TIME_LIMIT
  /\ (quizFinished st = true ->
      correctAnswers (results st) + wrongAnswers (results st) = n).
Proof.
  intros H n. unfold n.
  destruct quizQuestions as [|q rest] eqn:Q.
  - apply run_without_questions in H. subst st. simpl. split.
    + unfold TIME_LIMIT. lia.
    + discriminate.
  - rewrite <- Q in *.
    assert (Hne : quizQuestions <> []) by (rewrite Q; discriminate).
    destruct (reachable_Inv _ _ _ Hne H) as (Ha & Ht & Hs & Hc).
    unfold tally, TIME_LIMIT in *. split.
    + destruct (quizFinished st); [nia|].
      destruct (selectedAnswerIndex st =? -1); nia.
    + intros F. rewrite F in Hc. exact Hc.
Qed.

Lemma finished_quiz_tally_witness :
  let qs := firstn 2 Route.fallbackQuestions in
  let st := {| timePassed := 0;
               activeQuestion := 1;
               selectedAnswerIndex := -1;
               quizFinished := true;
               isCorrectAnswer := false;
               results := mkResults 0 2 60;
               timerRunning := false |} in
  run qs (initial qs) ([SelectAnswer 1; NextClick] ++ repeat Tick 61) = Some st
  /\ secondsUsed (results st) <= Z.of_nat (List.length qs) * TIME_LIMIT
  /\ correctAnswers (results st) + wrongAnswers (results st)
     = Z.of_nat (List.length qs).
Proof.
  intros qs st.
  assert (H : run qs (initial qs)
                ([SelectAnswer 1; NextClick] ++ repeat Tick 61) = Some st)
    by (vm_compute; reflexivity).
  split; [exact H|].
  destruct (finished_quiz_tally qs _ st H) as [Hseconds Htally].
  split; [exact Hseconds|apply Htally; reflexivity].
Defined.

(** C8. When a tick takes the elapsed counter past TIME_LIMIT while no
    option is selected, the question is scored wrong (one more wrong
    answer, TIME_LIMIT more seconds used, the correct answers unchanged),
    the counter is back at 0, and the controller is at the next question,
    or finished if the question was the last one. *)
Theorem timeout_scores_wrong_and_advances (quizQuestions : list Question)
  (st : State) :
  quizQuestions <> [] ->
  quizFinished st = false ->
  timerRunning st = true ->
  selectedAnswerIndex st = -1 ->
  TIME_LIMIT < timePassed (tickUpdate st) ->
  exists st',
    step quizQuestions st Tick = Some st'
    /\ wrongAnswers (results st') = wrongAnswers (results st) + 1
    /\ correctAnswers (results st') = correctAnswers (results st)
    /\ secondsUsed (results st') = secondsUsed (results st) + TIME_LIMIT
    /\ timePassed st' = 0
    /\ selectedAnswerIndex st' = -1
    /\ ((activeQuestion st + 1 < Z.of_nat (List.length quizQuestions)
         /\ activeQuestion st' = activeQuestion st + 1
         /\ quizFinished st' = false
         /\ timerRunning st' = true)
        \/ (Z.of_nat (List.length quizQuestions) <= activeQuestion st + 1
            /\ activeQuestion st' = activeQuestion st
            /\ quizFinished st' = true)).
Proof.
  destruct st as [tp aq sel fin ic [c w s] tr]. simpl.
  intros Hne -> -> -> Hlim.
  assert (Hlen : (Z.of_nat (List.length quizQuestions) =? 0) = false).
  { apply Z.eqb_neq. destruct quizQuestions; [contradiction|].
    simpl List.length. lia. }
  apply Z.gtb_lt in Hlim.
  eexists. split.
  - unfold step, timeEffect. simpl. rewrite Hlen, Hlim. reflexivity.
  - unfold handleNextQuestion. simpl.
    destruct (aq + 1 >=? Z.of_nat (List.length quizQuestions)) eqn:E;
      simpl; rewrite Z.geb_leb in E.
    + apply Z.leb_le in E. repeat split. right. repeat split. exact E.
    + apply Z.leb_gt in E. repeat split. left. repeat split. exact E.
Qed.

Lemma timeout_scores_wrong_and_advances_witness :
  let qs := firstn 2 Route.fallbackQuestions in
  let st := setTimePassed 60 (initial qs) in
  exists st',
    step qs st Tick = Some st'
    /\ wrongAnswers (results st') = wrongAnswers (results st) + 1
    /\ correctAnswers (results st') = correctAnswers (results st)
    /\ secondsUsed (results st') = secondsUsed (results st) + TIME_LIMIT
    /\ timePassed st' = 0
    /\ selectedAnswerIndex st' = -1
    /\ ((activeQuestion st + 1 < Z.of_nat (List.length qs)
         /\ activeQuestion st' = activeQuestion st + 1
         /\ quizFinished st' = false
         /\ timerRunning st' = true)
        \/ (Z.of_nat (List.length qs) <= activeQuestion st + 1
            /\ activeQuestion st' = activeQuestion st
            /\ quizFinished st' = true)).
Proof.
  apply (timeout_scores_wrong_and_advances
           (firstn 2 Route.fallbackQuestions)
           (setTimePassed 60 (initial (firstn 2 Route.fallbackQuestions))));
    [discriminate|reflexivity|reflexivity|reflexivity|reflexivity].
Defined.

Lemma ticks_below_limit (q : Question) (rest : list Question) (k : nat)
  (t : Z) :
  0 <= t -> t + Z.of_nat k <= TIME_LIMIT ->
  run (q :: rest) (setTimePassed t (initial (q :: rest))) (repeat Tick k)
  = Some (setTimePassed (t + Z.of_nat k) (initial (q :: rest))).
Proof.
  revert t. induction k as [|k IH]; intros t H0 Hk.
  - simpl. rewrite Z.add_0_r. reflexivity.
  - unfold TIME_LIMIT in *.
    change (repeat Tick (S k)) with (Tick :: repeat Tick k).
    assert (E : step (q :: rest) (setTimePassed t (initial (q :: rest))) Tick
                = Some (setTimePassed (t + 1) (initial (q :: rest)))).
    { unfold step, timeEffect, tickUpdate, setTimePassed, initial, TIME_LIMIT.
      simpl.
      destruct (t >? 60) eqn:E1; [rewrite Z.gtb_ltb in E1;
                                  apply Z.ltb_lt in E1; lia|].
      destruct (t + 1 >? 60) eqn:E2; [rewrite Z.gtb_ltb in E2;
                                      apply Z.ltb_lt in E2; lia|].
      reflexivity. }
    change (run (q :: rest) (setTimePassed t (initial (q :: rest)))
              (Tick :: repeat Tick k))
      with (match step (q :: rest) (setTimePassed t (initial (q :: rest)))
                    Tick with
            | Some st' => run (q :: rest) st' (repeat Tick k)
            | None => None
            end).
    rewrite E.
    rewrite IH by lia. f_equal. f_equal. lia.
Qed.

(** Between two events the counter is at most TIME_LIMIT, and the update
    of a tick takes it to TIME_LIMIT + 1 at most. *)
Lemma elapsed_counter_bound (quizQuestions : list Question)
  (evs : list Event) (st : State) :
  quizQuestions <> [] ->
  run quizQuestions (initial quizQuestions) evs = Some st ->
  timePassed st <= TIME_LIMIT
  /\ timePassed (tickUpdate st) <= TIME_LIMIT + 1.
Proof.
  intros Hne H.
  destruct (reachable_Inv _ _ _ Hne H) as (_ & Ht & _).
  split; [lia|].
  unfold tickUpdate, TIME_LIMIT in *. simpl.
  destruct (timePassed st >? 60); lia.
Qed.

(** C9, where the code departs from it: on a question left unanswered, the
    first 60 ticks take the elapsed counter to TIME_LIMIT, and the update
    of the next tick sets it to TIME_LIMIT + 1, the value the component
    renders before the time-out effect resets it to 0. *)
Theorem elapsed_counter_passes_limit (q : Question) (rest : list Question) :
  let qs := q :: rest in
  let st := setTimePassed TIME_LIMIT (initial qs) in
  run qs (initial qs) (repeat Tick 60) = Some st
  /\ timePassed (tickUpdate st) = TIME_LIMIT + 1
  /\ TIME_LIMIT < timePassed (tickUpdate st)
  /\ (exists st', step qs st Tick = Some st' /\ timePassed st' = 0).
Proof.
  intros qs st. unfold qs, st. split; [|split; [|split]].
  - change (initial (q :: rest)) with (setTimePassed 0 (initial (q :: rest)))
      at 1.
    rewrite ticks_below_limit; [reflexivity|lia|unfold TIME_LIMIT; simpl; lia].
  - reflexivity.
  - reflexivity.
  - eexists. split; [reflexivity|].
    unfold timeEffect, handleNextQuestion. simpl.
    split_ifs; reflexivity.
Qed.

End QuizProofs.

(** ** Cleaning the text of a stage *)

Lemma replace_fences_skip (k : nat) (s : string) :
  replace_fences k s = replace_fences 0 (drop_chars k s).
Proof.
  revert k. induction s as [|c s IH]; intros [|k]; try reflexivity.
  simpl. apply IH.
Qed.

Lemma drop_chars_length (k : nat) (s : string) :
  (String.length (drop_chars k s) <= String.length s)%nat.
Proof.
  revert k. induction s as [|c s IH]; intros [|k]; simpl; try lia.
  specialize (IH k). lia.
Qed.

Lemma prefix_cons (a b : ascii) (p s : string) :
  prefix (String a p) (String b s) = Ascii.eqb a b && prefix p s.
Proof.
  simpl. destruct (ascii_dec a b) as [->|N].
  - rewrite Ascii.eqb_refl. reflexivity.
  - apply Ascii.eqb_neq in N. rewrite N. reflexivity.
Qed.

(** One unfolding of the scan. *)
Lemma replace_fences_step (c : ascii) (rest : string) :
  replace_fences 0 (String c rest)
  = if prefix "```json" (String c rest)
    then replace_fences 0 (drop_chars 6 rest)
    else if prefix "```" (String c rest)
    then replace_fences 0 (drop_chars 2 rest)
    else String c (replace_fences 0 rest).
Proof.
  change (replace_fences 0 (String c rest))
    with (if prefix "```json" (String c rest) then replace_fences 6 rest
          else if prefix "```" (String c rest) then replace_fences 2 rest
          else String c (replace_fences 0 rest)).
  rewrite (replace_fences_skip 6), (replace_fences_skip 2). reflexivity.
Qed.

Lemma prefix_nil (a : ascii) (p : string) : prefix (String a p) "" = false.
Proof. reflexivity. Qed.

Lemma prefix_empty (s : string) : prefix "" s = true.
Proof. destruct s; reflexivity. Qed.

Lemma prefix_json_fence (s : string) :
  prefix "```json" s = true -> prefix "```" s = true.
Proof.
  intros H.
  destruct s as [|a [|b [|c s]]]; (repeat match goal with H : _ = _ |- _ => revert H end;
     rewrite ?prefix_cons, ?prefix_nil, ?prefix_empty;
     repeat match goal with
       | |- context [Ascii.eqb ?x ?y] => destruct (Ascii.eqb x y); cbn [andb]
       end;
     intros; try discriminate; try reflexivity; try congruence).
Qed.

(** The output starts with two backticks only if the input does. *)
Lemma replace_fences_two_backticks (s : string) :
  prefix "``" (replace_fences 0 s) = true -> prefix "``" s = true.
Proof.
  destruct s as [|a s]; [discriminate|].
  rewrite replace_fences_step.
  destruct (prefix "```json" (String a s)) eqn:J.
  { intros _. apply prefix_json_fence in J.
    destruct s as [|b s]; (repeat match goal with H : _ = _ |- _ => revert H end;
     rewrite ?prefix_cons, ?prefix_nil, ?prefix_empty;
     repeat match goal with
       | |- context [Ascii.eqb ?x ?y] => destruct (Ascii.eqb x y); cbn [andb]
       end;
     intros; try discriminate; try reflexivity; try congruence). }
  destruct (prefix "```" (String a s)) eqn:F.
  { intros _. destruct s as [|b s]; (repeat match goal with H : _ = _ |- _ => revert H end;
     rewrite ?prefix_cons, ?prefix_nil, ?prefix_empty;
     repeat match goal with
       | |- context [Ascii.eqb ?x ?y] => destruct (Ascii.eqb x y); cbn [andb]
       end;
     intros; try discriminate; try reflexivity; try congruence). }
  intros H. rewrite prefix_cons in H.
  apply andb_true_iff in H. destruct H as [Ha H].
  rewrite prefix_cons, Ha. cbn [andb].
  destruct s as [|b s]; [discriminate|].
  rewrite prefix_cons, prefix_empty.
  destruct (Ascii.eqb "`" b) eqn:B; [reflexivity|].
  rewrite replace_fences_step in H.
  assert (J2 : prefix "```json" (String b s) = false)
    by (rewrite prefix_cons, B; reflexivity).
  assert (F2 : prefix "```" (String b s) = false)
    by (rewrite prefix_cons, B; reflexivity).
  rewrite J2, F2, prefix_cons, B in H. discriminate.
Qed.

Lemma replace_fences_no_fence_aux (n : nat) :
  forall s, (String.length s <= n)%nat ->
            has_fence (replace_fences 0 s) = false.
Proof.
  induction n as [|n IH]; intros s Hlen.
  - destruct s; [reflexivity|simpl in Hlen; lia].
  - destruct s as [|a s]; [reflexivity|]. simpl in Hlen.
    rewrite replace_fences_step.
    destruct (prefix "```json" (String a s)) eqn:J.
    { apply IH. pose proof (drop_chars_length 6 s). lia. }
    destruct (prefix "```" (String a s)) eqn:F.
    { apply IH. pose proof (drop_chars_length 2 s). lia. }
    change (has_fence (String a (replace_fences 0 s)))
      with (prefix "```" (String a (replace_fences 0 s))
            || has_fence (replace_fences 0 s)).
    rewrite IH by lia. rewrite orb_false_r.
    rewrite prefix_cons in *.
    destruct (Ascii.eqb "`" a); [|reflexivity]. simpl in *.
    destruct (prefix "``" (replace_fences 0 s)) eqn:P; [|reflexivity].
    apply replace_fences_two_backticks in P. congruence.
Qed.

Lemma replace_fences_no_fence (s : string) :
  has_fence (replace_fences 0 s) = false.
Proof. apply (replace_fences_no_fence_aux (String.length s)). lia. Qed.

Lemma replace_fences_fixed (s : string) :
  has_fence s = false -> replace_fences 0 s = s.
Proof.
  induction s as [|a s IH]; [reflexivity|].
  intros H.
  change (has_fence (String a s)) with (prefix "```" (String a s) || has_fence s) in H.
  apply orb_false_iff in H. destruct H as [F H].
  rewrite replace_fences_step, F.
  destruct (prefix "```json" (String a s)) eqn:J.
  - apply prefix_json_fence in J. congruence.
  - rewrite IH by assumption. reflexivity.
Qed.

Lemma has_fence_cons (c : ascii) (s : string) :
  has_fence (String c s) = prefix "```" (String c s) || has_fence s.
Proof. reflexivity. Qed.

Lemma has_fence_tail (c : ascii) (s : string) :
  has_fence (String c s) = false -> has_fence s = false.
Proof.
  rewrite has_fence_cons. intros H. apply orb_false_iff in H. apply H.
Qed.

Lemma trimStart_step (k : nat) (c : ascii) (rest : string) :
  trimStart_from k (String c rest)
  = match k with
    | S k' => trimStart_from k' rest
    | O => match ws_len (String c rest) with
           | O => String c rest
           | S k' => trimStart_from k' rest
           end
    end.
Proof. destruct k; reflexivity. Qed.

Lemma trimStart_no_fence (k : nat) (s : string) :
  has_fence s = false -> has_fence (trimStart_from k s) = false.
Proof.
  revert k. induction s as [|c s IH]; intros k H; [destruct k; reflexivity|].
  rewrite trimStart_step.
  pose proof (has_fence_tail _ _ H) as Ht.
  destruct k as [|k]; [|auto].
  destruct (ws_len (String c s)); auto.
Qed.

Lemma trimEnd_step (c : ascii) (rest : string) :
  trimEnd (String c rest)
  = if all_whitespace 0 (String c rest) then "" else String c (trimEnd rest).
Proof. reflexivity. Qed.

Lemma prefix_trimEnd (p s : string) :
  prefix p (trimEnd s) = true -> prefix p s = true.
Proof.
  revert p. induction s as [|c s IH]; intros p; [auto|].
  rewrite trimEnd_step.
  destruct (all_whitespace 0 (String c s)).
  - destruct p; [intros _; reflexivity|discriminate].
  - destruct p as [|a p]; [intros _; reflexivity|].
    rewrite !prefix_cons. intros H.
    apply andb_true_iff in H. destruct H as [H1 H2].
    rewrite H1, (IH _ H2). reflexivity.
Qed.

Lemma trimEnd_no_fence (s : string) :
  has_fence s = false -> has_fence (trimEnd s) = false.
Proof.
  induction s as [|c s IH]; intros H; [reflexivity|].
  rewrite trimEnd_step.
  destruct (all_whitespace 0 (String c s)); [reflexivity|].
  rewrite has_fence_cons in *.
  apply orb_false_iff in H. destruct H as [F H].
  rewrite (IH H), orb_false_r.
  destruct (prefix "```" (String c (trimEnd s))) eqn:P; [|reflexivity].
  rewrite prefix_cons in P, F.
  apply andb_true_iff in P. destruct P as [P1 P2].
  apply prefix_trimEnd in P2. rewrite P1, P2 in F. discriminate.
Qed.

(** X1. The text the Gemini stage parses holds no code-fence marker: after
    [replace(/```json|```/g, '')] no "```" is left, trimming brings none
    back, and replacing again changes nothing. *)
Theorem cleaned_text_has_no_fence (content : string) :
  let cleanedContent := trim (replace_fences 0 content) in
  has_fence (replace_fences 0 content) = false
  /\ has_fence cleanedContent = false
  /\ replace_fences 0 cleanedContent = cleanedContent.
Proof.
  intros cleanedContent.
  pose proof (replace_fences_no_fence content) as H.
  assert (Hc : has_fence cleanedContent = false).
  { unfold cleanedContent, trim.
    apply trimEnd_no_fence, trimStart_no_fence. exact H. }
  repeat split; [exact H|exact Hc|].
  apply replace_fences_fixed. exact Hc.
Qed.

Lemma replace_fences_app (t u : string) :
  no_backtick t = true ->
  replace_fences 0 (t ++ u) = t ++ replace_fences 0 u.
Proof.
  induction t as [|c t IH]; [reflexivity|].
  simpl no_backtick. intros H.
  apply andb_true_iff in H. destruct H as [Hc Ht].
  apply negb_true_iff in Hc. rewrite Ascii.eqb_sym in Hc.
  change (String c t ++ u) with (String c (t ++ u)).
  rewrite replace_fences_step.
  rewrite !prefix_cons, Hc. cbn [andb].
  rewrite (IH Ht). reflexivity.
Qed.

Lemma string_app_empty (t : string) : t ++ "" = t.
Proof. induction t as [|c t IH]; [reflexivity|]. simpl. rewrite IH. reflexivity. Qed.

Lemma replace_fences_fenced (t : string) :
  no_backtick t = true ->
  replace_fences 0 ("```json" ++ t ++ "```") = t
  /\ replace_fences 0 t = t.
Proof.
  intros H. split.
  - change ("```json" ++ t ++ "```")
      with (String "`" (String "`" (String "`" (String "j" (String "s"
             (String "o" (String "n" (t ++ "```")))))))).
    rewrite replace_fences_step.
    rewrite !prefix_cons, !Ascii.eqb_refl, prefix_empty. cbn [andb].
    change (drop_chars 6 _) with (t ++ "```").
    rewrite (replace_fences_app _ _ H).
    change (replace_fences 0 "```") with "".
    apply string_app_empty.
  - rewrite <- (string_app_empty t) at 1.
    rewrite (replace_fences_app _ _ H). apply string_app_empty.
Qed.

(** X2. A non-empty text without backticks that the service wraps in a
    "```json" fence is cleaned to the same text as the bare one, so the
    Gemini stage answers both alike, whatever JSON.parse does. *)
Theorem fenced_text_same_as_bare
  (JSON_parse : string -> option JSValue) (t : string) :
  no_backtick t = true -> t <> "" ->
  trim (replace_fences 0 ("```json" ++ t ++ "```")) = trim t
  /\ gemini_stage JSON_parse (Returned (Some ("```json" ++ t ++ "```")))
     = gemini_stage JSON_parse (Returned (Some t)).
Proof.
  intros Hb Hne.
  destruct (replace_fences_fenced t Hb) as [Hf Ht].
  split; [rewrite Hf; reflexivity|].
  unfold gemini_stage.
  change ("```json" ++ t ++ "```" =? "")%string with false.
  apply String.eqb_neq in Hne. rewrite Hne, Hf, Ht. reflexivity.
Qed.

Lemma fenced_text_same_as_bare_witness :
  gemini_stage Json.parse
    (Returned (Some ("```json" ++ two_numbers_text ++ "```")))
  = gemini_stage Json.parse (Returned (Some two_numbers_text)).
Proof.
  apply (fenced_text_same_as_bare Json.parse two_numbers_text);
    [reflexivity|discriminate].
Defined.

(** ** The fallback for every count, the source tags *)

Lemma slice_from_start_any {A : Type} (l : list A) (n : Z) :
  slice l 0 n
  = firstn (Z.to_nat (if n <? 0 then Z.max (Z.of_nat (List.length l) + n) 0
                      else Z.min n (Z.of_nat (List.length l)))) l.
Proof.
  unfold slice.
  replace (0 <? 0) with false by reflexivity.
  replace (Z.min 0 (Z.of_nat (List.length l))) with 0 by lia.
  simpl skipn. f_equal.
  destruct (n <? 0); lia.
Qed.

Lemma slice_of_five (l : list Question) (count : Z) :
  List.length l = 5%nat ->
  slice l 0 count = firstn (kept_of_five count) l
  /\ slice l 0 (Z.min count 5) = firstn (kept_of_five count) l.
Proof.
  intros H. rewrite !slice_from_start_any, H. unfold kept_of_five.
  split; f_equal.
  destruct (count <? 0) eqn:E1; destruct (Z.min count 5 <? 0) eqn:E2;
    try apply Z.ltb_lt in E1; try apply Z.ltb_ge in E1;
    try apply Z.ltb_lt in E2; try apply Z.ltb_ge in E2; lia.
Qed.

(** X3. When the generation stage fails, the fallback of a valid request
    is the first [k] questions of its table for every integer count: [k] is
    min(count, 5) for a count of 0 or more, and for a negative count
    [slice] drops from the end, 5 + count questions are kept (none from -5
    down).  The three variants agree. *)
Theorem fallback_for_any_count
  (JSON_parse : string -> option JSValue) (subject difficulty : string)
  (n : option Z) (openai gemini : Outcome) :
  subject <> "" -> difficulty <> "" ->
  gemini_stage JSON_parse gemini = None ->
  let body := BodyFields (Some subject) (Some difficulty) n in
  let k := kept_of_five (with_default n) in
  carries (Route.POST JSON_parse body gemini)
    (firstn k Route.fallbackQuestions)
  /\ (openai_stage JSON_parse openai = None ->
      carries (TwoStage.POST JSON_parse body openai gemini)
        (firstn k TwoStage.fallbackQuestions))
  /\ (forall entries,
         MockRoute.mockData_get subject = MockRoute.Own entries ->
         carries (MockRoute.POST JSON_parse body gemini) (firstn k entries))
  /\ (MockRoute.mockData_get subject = MockRoute.Undefined ->
      carries (MockRoute.POST JSON_parse body gemini)
        (firstn k MockRoute.general_knowledge))
  /\ (k <= 5)%nat
  /\ (with_default n <= -5 -> k = 0%nat)
  /\ (-5 <= with_default n < 0 -> Z.of_nat k = 5 + with_default n).
Proof.
  intros Hs Hd Hg body k. unfold body, k, carries.
  rewrite route_valid, twostage_valid, mock_valid by assumption.
  rewrite Hg.
  split; [|split; [|split; [|split; [|split; [|split]]]]].
  - simpl. do 2 f_equal. apply slice_of_five. reflexivity.
  - intros ->. simpl. do 2 f_equal. apply slice_of_five. reflexivity.
  - intros entries M. rewrite M. simpl. do 2 f_equal.
    apply slice_of_five. apply (mockData_ok _ _ M).
  - intros ->. simpl. do 2 f_equal. apply slice_of_five. reflexivity.
  - unfold kept_of_five.
    destruct (with_default n <? 0) eqn:E;
      [apply Z.ltb_lt in E|apply Z.ltb_ge in E]; lia.
  - intros H. unfold kept_of_five.
    destruct (with_default n <? 0) eqn:E;
      [apply Z.ltb_lt in E|apply Z.ltb_ge in E]; lia.
  - intros H. unfold kept_of_five.
    destruct (with_default n <? 0) eqn:E;
      [apply Z.ltb_lt in E|apply Z.ltb_ge in E]; lia.
Qed.

Lemma fallback_for_any_count_witness :
  let body := BodyFields (Some "History") (Some "Easy") (Some (-2)) in
  carries (Route.POST Json.parse body Raised)
    (firstn 3 Route.fallbackQuestions)
  /\ carries (TwoStage.POST Json.parse body Raised Raised)
       (firstn 3 TwoStage.fallbackQuestions)
  /\ carries (MockRoute.POST Json.parse body Raised) (firstn 3 history_table).
Proof.
  destruct (fallback_for_any_count Json.parse "History" "Easy" (Some (-2))
              Raised Raised)
    as (Hroute & Htwo & Hmock & _);
    [discriminate|discriminate|reflexivity|].
  split; [exact Hroute|]. split; [apply Htwo; reflexivity|].
  apply (Hmock history_table). reflexivity.
Defined.

Lemma carried_prefix (l : list Question) (k : nat) (src : option string) :
  Forall Question_ok l -> List.length l = 5%nat ->
  exists qs, carries (json_ok (map question_to_js (firstn k l)) src) qs
             /\ Forall Question_ok qs /\ (List.length qs <= 5)%nat.
Proof.
  intros Hok Hlen. exists (firstn k l). repeat split.
  - apply Forall_firstn. exact Hok.
  - rewrite length_firstn. lia.
Qed.

(** X4. When no generation stage passes, every answer of the three
    variants is either the 400 rejection or a 200 that carries at most five
    questions, each satisfying the Question invariant, for every body,
    subject and count. *)
Theorem hard_coded_answers_well_formed
  (JSON_parse : string -> option JSValue) (body : Body)
  (openai gemini : Outcome) :
  openai_stage JSON_parse openai = None ->
  gemini_stage JSON_parse gemini = None ->
  let hard_coded r :=
    r = bad_request
    \/ (status r = 200
        /\ exists qs, carries r qs /\ Forall Question_ok qs
                      /\ (List.length qs <= 5)%nat) in
  hard_coded (Route.POST JSON_parse body gemini)
  /\ hard_coded (MockRoute.POST JSON_parse body gemini)
  /\ hard_coded (TwoStage.POST JSON_parse body openai gemini).
Proof.
  intros Ho Hg hard_coded. unfold hard_coded.
  unfold Route.POST, MockRoute.POST, TwoStage.POST, MockRoute.final_fallback.
  rewrite Ho, Hg.
  pose proof route_fallback_ok as R. pose proof twostage_fallback_ok as T.
  destruct general_knowledge_ok as [G GL].
  assert (S5 : forall (l : list Question) (c : Z) src,
             Forall Question_ok l -> List.length l = 5%nat ->
             exists qs, carries (json_ok (map question_to_js (slice l 0 c)) src) qs
                        /\ Forall Question_ok qs /\ (List.length qs <= 5)%nat).
  { intros l c src Hok Hlen.
    destruct (slice_of_five l c Hlen) as [-> _].
    apply carried_prefix; assumption. }
  destruct body as [| |s d n].
  - repeat split; right; (split; [reflexivity|]); apply S5; auto.
  - repeat split; right; (split; [reflexivity|]); apply S5; auto.
  - destruct (negb (present s) || negb (present d)).
    + repeat split; left; reflexivity.
    + split; [|split].
      * right. split; [reflexivity|]. apply S5; auto.
      * destruct (MockRoute.mockData_get (MockRoute.property_key s))
          as [entries| |] eqn:M; right; (split; [reflexivity|]).
        -- destruct (mockData_ok _ _ M). apply S5; auto.
        -- apply S5; auto.
        -- apply S5; auto.
      * right. split; [reflexivity|]. apply S5; auto.
Qed.

Lemma hard_coded_answers_well_formed_witness :
  exists qs, carries (MockRoute.POST Json.parse
                        (BodyFields (Some "toString") (Some "Easy") (Some 3))
                        (Returned (Some "not json")))
               qs
             /\ Forall Question_ok qs /\ (List.length qs <= 5)%nat.
Proof.
  destruct (hard_coded_answers_well_formed Json.parse
              (BodyFields (Some "toString") (Some "Easy") (Some 3))
              Raised (Returned (Some "not json")) eq_refl eq_refl)
    as (_ & [H|[_ H]] & _); [discriminate|exact H].
Defined.

(** X5. In the two-stage variant the source tag of a valid request names
    the path taken: ["openai"] exactly when the OpenAI stage passes,
    ["gemini"] exactly when it fails and the Gemini stage passes,
    ["fallback"] exactly when both fail.  When the OpenAI stage passes, the
    answer is its questions array and does not depend on what Gemini would
    return. *)
Theorem two_stage_source_tag
  (JSON_parse : string -> option JSValue) (subject difficulty : string)
  (n : option Z) (openai gemini : Outcome) :
  subject <> "" -> difficulty <> "" ->
  let body := BodyFields (Some subject) (Some difficulty) n in
  let r := TwoStage.POST JSON_parse body openai gemini in
  (source r = Some "openai" <-> openai_stage JSON_parse openai <> None)
  /\ (source r = Some "gemini"
      <-> openai_stage JSON_parse openai = None
          /\ gemini_stage JSON_parse gemini <> None)
  /\ (source r = Some "fallback"
      <-> openai_stage JSON_parse openai = None
          /\ gemini_stage JSON_parse gemini = None)
  /\ (openai_stage JSON_parse openai <> None ->
      forall gemini',
        TwoStage.POST JSON_parse body openai gemini' = r
        /\ questions r = openai_stage JSON_parse openai).
Proof.
  intros Hs Hd body r. unfold r, body.
  split; [|split; [|split]].
  - rewrite twostage_valid by assumption.
    destruct (openai_stage JSON_parse openai);
      [|destruct (gemini_stage JSON_parse gemini)]; simpl;
      split; intros H; congruence.
  - rewrite twostage_valid by assumption.
    destruct (openai_stage JSON_parse openai);
      [|destruct (gemini_stage JSON_parse gemini)]; simpl;
      split; try (intros [H1 H2]); try intros H; try split; congruence.
  - rewrite twostage_valid by assumption.
    destruct (openai_stage JSON_parse openai);
      [|destruct (gemini_stage JSON_parse gemini)]; simpl;
      split; try (intros [H1 H2]); try intros H; try split; congruence.
  - intros Ho gemini'. rewrite !twostage_valid by assumption.
    destruct (openai_stage JSON_parse openai); [|congruence].
    split; reflexivity.
Qed.

Lemma two_stage_source_tag_witness :
  source (TwoStage.POST Json.parse
            (BodyFields (Some "Science") (Some "Hard") None)
            (Returned (Some two_numbers_text)) Raised)
  = Some "openai".
Proof.
  destruct (two_stage_source_tag Json.parse "Science" "Hard" None
              (Returned (Some two_numbers_text)) Raised)
    as ([_ H] & _); [discriminate|discriminate|].
  apply H. discriminate.
Defined.

(** X6. In the single-stage variants a valid request has no source tag
    exactly when the Gemini stage passes, and the answer is then the stage's
    array.  route.ts tags a failed stage ["fallback"]; the mock-data variant
    tags it ["mock"], or ["fallback"] when the subject is a property name of
    Object.prototype and the outer catch answers. *)
Theorem single_stage_source_tag
  (JSON_parse : string -> option JSValue) (subject difficulty : string)
  (n : option Z) (gemini : Outcome) :
  subject <> "" -> difficulty <> "" ->
  let body := BodyFields (Some subject) (Some difficulty) n in
  let r := Route.POST JSON_parse body gemini in
  let m := MockRoute.POST JSON_parse body gemini in
  (source r = None <-> gemini_stage JSON_parse gemini <> None)
  /\ (source r = Some "fallback" <-> gemini_stage JSON_parse gemini = None)
  /\ (source m = None <-> gemini_stage JSON_parse gemini <> None)
  /\ (source m = Some "mock"
      <-> gemini_stage JSON_parse gemini = None
          /\ MockRoute.mockData_get subject <> MockRoute.Inherited)
  /\ (source m = Some "fallback"
      <-> gemini_stage JSON_parse gemini = None
          /\ MockRoute.mockData_get subject = MockRoute.Inherited)
  /\ (gemini_stage JSON_parse gemini <> None ->
      questions r = gemini_stage JSON_parse gemini
      /\ questions m = gemini_stage JSON_parse gemini).
Proof.
  intros Hs Hd body r m. unfold r, m, body.
  rewrite route_valid, mock_valid by assumption.
  destruct (gemini_stage JSON_parse gemini) as [qs|];
    [|destruct (MockRoute.mockData_get subject) as [entries| |]];
    simpl; repeat split;
    try (intros [H1 H2]); try intros H; try split; congruence.
Qed.

Lemma single_stage_source_tag_witness :
  source (MockRoute.POST Json.parse
            (BodyFields (Some "History") (Some "Easy") None) Raised)
  = Some "mock".
Proof.
  destruct (single_stage_source_tag Json.parse "History" "Easy" None Raised)
    as (_ & _ & _ & [_ H] & _); [discriminate|discriminate|].
  apply H. split; [reflexivity|discriminate].
Defined.

(** ** The client and the route together *)

Lemma fetch_json_ok (q : JSValue) (rest : list JSValue) (src : option string) :
  Client.fetchQuestions (Client.Json (json_ok (q :: rest) src))
  = Client.Loaded (q :: rest).
Proof. reflexivity. Qed.

Lemma served_by_stage_or_table
  (stage : option (list JSValue)) (l : list Question) (count : Z)
  (src1 src2 : option string) :
  (forall qs, stage = Some qs -> exists q rest, qs = q :: rest) ->
  List.length l = 5%nat -> 1 <= count ->
  exists q rest src,
    match stage with
    | Some qs => json_ok qs src1
    | None => json_ok (map question_to_js (slice l 0 count)) src2
    end = json_ok (q :: rest) src.
Proof.
  intros Hstage Hlen Hc. destruct stage as [qs|].
  - destruct (Hstage qs eq_refl) as (q & rest & ->). eauto.
  - destruct l as [|x l]; [discriminate|].
    destruct (slice_nonempty x l count Hc) as (y & rest & ->).
    simpl. eauto.
Qed.

(** X7. The component's request (count 10) for a non-empty subject and
    level always loads a non-empty question list, with every variant of the
    route and whatever the generation services do: [fetchQuestions] never
    ends in the error state. *)
Theorem selection_always_loads
  (JSON_parse : string -> option JSValue) (subject level : string)
  (openai gemini : Outcome) :
  subject <> "" -> level <> "" ->
  let body := Client.request_body subject level in
  let loads r :=
    exists q rest, Client.fetchQuestions (Client.Json r)
                   = Client.Loaded (q :: rest)
                   /\ questions r = Some (q :: rest) in
  loads (Route.POST JSON_parse body gemini)
  /\ loads (MockRoute.POST JSON_parse body gemini)
  /\ loads (TwoStage.POST JSON_parse body openai gemini).
Proof.
  intros Hs Hl body loads. unfold body, loads, Client.request_body.
  rewrite route_valid, mock_valid, twostage_valid by assumption.
  assert (Hg : forall qs, gemini_stage JSON_parse gemini = Some qs ->
                          exists q rest, qs = q :: rest)
    by (intros qs; apply gemini_stage_nonempty).
  assert (Ho : forall qs, openai_stage JSON_parse openai = Some qs ->
                          exists q rest, qs = q :: rest)
    by (intros qs; apply openai_stage_nonempty).
  split; [|split].
  - destruct (served_by_stage_or_table (gemini_stage JSON_parse gemini)
                Route.fallbackQuestions (Z.min (with_default (Some 10)) 5)
                None (Some "fallback") Hg eq_refl)
      as (q & rest & src & ->); [simpl; lia|].
    exists q, rest. split; reflexivity.
  - destruct (gemini_stage JSON_parse gemini) as [qs|] eqn:G.
    + destruct (Hg qs eq_refl) as (q & rest & ->).
      exists q, rest. split; reflexivity.
    + destruct (MockRoute.mockData_get subject) as [entries| |] eqn:M.
      * destruct (mockData_ok _ _ M) as [_ Hlen].
        destruct entries as [|x entries]; [discriminate|].
        destruct (slice_nonempty x entries (with_default (Some 10)))
          as (y & rest & ->); [simpl; lia|].
        eexists _, _. split; reflexivity.
      * eexists _, _. split; reflexivity.
      * eexists _, _. split; reflexivity.
  - destruct (openai_stage JSON_parse openai) as [qs|] eqn:O.
    + destruct (Ho qs eq_refl) as (q & rest & ->).
      exists q, rest. split; reflexivity.
    + destruct (served_by_stage_or_table (gemini_stage JSON_parse gemini)
                  TwoStage.fallbackQuestions (Z.min (with_default (Some 10)) 5)
                  (Some "gemini") (Some "fallback") Hg eq_refl)
        as (q & rest & src & ->); [simpl; lia|].
      exists q, rest. split; reflexivity.
Qed.

Lemma selection_always_loads_witness :
  exists q rest,
    Client.fetchQuestions
      (Client.Json (MockRoute.POST Json.parse
                      (Client.request_body "History" "Easy") Raised))
    = Client.Loaded (q :: rest).
Proof.
  destruct (selection_always_loads Json.parse "History" "Easy" Raised Raised)
    as (_ & (q & rest & H & _) & _); [discriminate|discriminate|].
  exists q, rest. exact H.
Defined.

(** X8. With an empty subject or level, the component's request is
    rejected by every variant and [fetchQuestions] sets the error to the
    route's own message, "Subject and difficulty are required". *)
Theorem empty_selection_shows_route_error
  (JSON_parse : string -> option JSValue) (subject level : string)
  (openai gemini : Outcome) :
  subject = "" \/ level = "" ->
  let body := Client.request_body subject level in
  let message := "Subject and difficulty are required" in
  Client.fetchQuestions (Client.Json (Route.POST JSON_parse body gemini))
  = Client.Failed message
  /\ Client.fetchQuestions
       (Client.Json (MockRoute.POST JSON_parse body gemini))
     = Client.Failed message
  /\ Client.fetchQuestions
       (Client.Json (TwoStage.POST JSON_parse body openai gemini))
     = Client.Failed message.
Proof.
  intros H body message. unfold body, Client.request_body.
  assert (E : negb (present (Some subject)) || negb (present (Some level))
              = true).
  { destruct H as [-> | ->]; simpl; [reflexivity|].
    apply orb_true_r. }
  unfold Route.POST, MockRoute.POST, TwoStage.POST. rewrite E.
  repeat split.
Qed.

Lemma empty_selection_shows_route_error_witness :
  Client.fetchQuestions
    (Client.Json (Route.POST Json.parse (Client.request_body "" "")
                    (Returned (Some two_numbers_text))))
  = Client.Failed "Subject and difficulty are required".
Proof.
  destruct (empty_selection_shows_route_error Json.parse "" ""
              Raised (Returned (Some two_numbers_text)))
    as (H & _); [left; reflexivity|exact H].
Defined.

Lemma or_else_nonempty (a b : string) : b <> "" -> Client.or_else a b <> "".
Proof.
  intros Hb. unfold Client.or_else.
  destruct (a =? "")%string eqn:E; [exact Hb|].
  apply String.eqb_neq. exact E.
Qed.

(** X9. [fetchQuestions] stores questions exactly when the reply is JSON
    with a status from 200 to 299 and a non-empty questions array; in every
    other case it sets an error message, which is never empty. *)
Theorem fetch_outcome (reply : Client.Reply) :
  (forall qs,
      Client.fetchQuestions reply = Client.Loaded qs
      <-> exists r, reply = Client.Json r
                    /\ 200 <= status r <= 299
                    /\ questions r = Some qs /\ qs <> [])
  /\ (forall e, Client.fetchQuestions reply = Client.Failed e -> e <> "").
Proof.
  assert (D : Client.default_error <> "") by discriminate.
  split.
  - intros qs. split.
    + destruct reply as [m|st m|r]; simpl.
      * discriminate.
      * destruct (Client.response_ok st); discriminate.
      * destruct (Client.response_ok (status r)) eqn:O; [|discriminate].
        destruct (questions r) as [[|q rest]|] eqn:Q; try discriminate.
        intros H. injection H as <-.
        unfold Client.response_ok in O.
        apply andb_true_iff in O. destruct O as [O1 O2].
        apply Z.leb_le in O1. apply Z.leb_le in O2.
        exists r. repeat split; try assumption. discriminate.
    + intros (r & -> & [H1 H2] & Q & Hne). simpl.
      assert (O : Client.response_ok (status r) = true).
      { unfold Client.response_ok.
        apply andb_true_iff. split; apply Z.leb_le; assumption. }
      rewrite O, Q. destruct qs; [contradiction|reflexivity].
  - intros e. destruct reply as [m|st m|r]; simpl.
    + intros H. injection H as <-. apply or_else_nonempty, D.
    + destruct (Client.response_ok st); intros H; injection H as <-;
        apply or_else_nonempty, D.
    + destruct (Client.response_ok (status r)).
      * destruct (questions r) as [[|q rest]|]; try discriminate;
          intros H; injection H as <-; apply or_else_nonempty, D.
      * intros H; injection H as <-; apply or_else_nonempty, D.
Qed.

(** ** The page *)

Module HomeProofs.
Import Home.

Lemma existsb_In (x : string) (l : list string) :
  existsb (String.eqb x) l = true -> In x l.
Proof.
  intros H. apply existsb_exists in H. destruct H as (y & Hy & E).
  apply String.eqb_eq in E. subst y. exact Hy.
Qed.

Lemma page_invariant_step (st st' : State) (ev : Event) :
  page_invariant st -> step st ev = Some st' -> page_invariant st'.
Proof.
  destruct st as [v s l]. unfold page_invariant, selection_made, step, render.
  cbn [displayView selectedSubject selectedLevel].
  intros (Hs & Hl & Hv) H.
  destruct (v =? "intro")%string eqn:V1.
  { destruct ev; try discriminate. injection H as <-. simpl. tauto. }
  destruct (v =? "subject-select")%string eqn:V2.
  { apply String.eqb_eq in V2. subst v.
    destruct ev as [|subject|level| |]; try discriminate.
    - destruct (existsb (String.eqb subject) subjects) eqn:E; [|discriminate].
      injection H as <-. simpl. apply existsb_In in E. tauto.
    - destruct (existsb (String.eqb level) levels) eqn:E; [|discriminate].
      injection H as <-. simpl. apply existsb_In in E. tauto.
    - unfold continue_fires, continue_disabled in H.
      cbn [displayView selectedSubject selectedLevel] in H.
      destruct (s =? "")%string eqn:S; [discriminate|].
      destruct (l =? "")%string eqn:L; [discriminate|].
      injection H as <-. simpl.
      apply String.eqb_neq in S. apply String.eqb_neq in L.
      split; [exact Hs|]. split; [exact Hl|].
      right. right. split; [left; reflexivity|]. tauto. }
  destruct (v =? "countdown")%string eqn:V3.
  { apply String.eqb_eq in V3. subst v.
    destruct ev; try discriminate. injection H as <-. simpl.
    split; [exact Hs|]. split; [exact Hl|].
    destruct Hv as [Hv|[Hv|[_ Hv]]]; try discriminate.
    right. right. split; [right; reflexivity|exact Hv]. }
  destruct (v =? "quiz")%string; discriminate.
Qed.

Lemma page_invariant_run (evs : list Event) (st st' : State) :
  page_invariant st -> run st evs = Some st' -> page_invariant st'.
Proof.
  revert st. induction evs as [|ev evs IH]; simpl; intros st HI H.
  - injection H as <-. exact HI.
  - destruct (step st ev) as [st1|] eqn:E; [|discriminate].
    eapply IH; [|exact H]. eapply page_invariant_step; eauto.
Qed.

Lemma page_invariant_initial : page_invariant initial.
Proof. unfold page_invariant, initial. simpl. tauto. Qed.

(** X10. After any sequence of clicks the page shows one of its four
    screens, and the countdown and the quiz are only shown with a subject
    and a level of the two lists selected, hence both non-empty. *)
Theorem quiz_screen_needs_selection (evs : list Event) (st : State) :
  run initial evs = Some st ->
  render st <> None
  /\ (forall subject level,
         render st = Some (QuizScreen subject level) \/
         (render st = Some CountdownScreen
          /\ subject = selectedSubject st /\ level = selectedLevel st) ->
         In subject subjects /\ In level levels
         /\ subject <> "" /\ level <> "").
Proof.
  intros H. pose proof (page_invariant_run _ _ _ page_invariant_initial H) as (Hs & Hl & Hv).
  assert (Hne : forall x l, In x l -> l = subjects \/ l = levels -> x <> "").
  { intros x l Hin [-> | ->] ->; simpl in Hin;
      repeat (destruct Hin as [Hin|Hin]; [discriminate|]); exact Hin. }
  unfold render, selection_made in *. split.
  - destruct Hv as [-> |[-> |[[-> | ->] _]]]; discriminate.
  - intros subject level Hr.
    assert (Hsel : In (selectedSubject st) subjects
                   /\ In (selectedLevel st) levels
                   /\ subject = selectedSubject st
                   /\ level = selectedLevel st).
    { destruct Hv as [Hv|[Hv|[[Hv|Hv] [H1 H2]]]]; rewrite Hv in Hr;
        simpl in Hr; destruct Hr as [Hr|[Hr [-> ->]]];
        try discriminate; try (injection Hr as <- <-); auto. }
    destruct Hsel as (H1 & H2 & -> & ->).
    repeat split; try assumption.
    + apply (Hne _ subjects); auto.
    + apply (Hne _ levels); auto.
Qed.

Lemma quiz_screen_needs_selection_witness :
  let st := {| displayView := "quiz";
               selectedSubject := "History";
               selectedLevel := "Hard" |} in
  run initial [GetStartedClick; LevelClick "Easy"; SubjectClick "History";
               LevelClick "Hard"; ContinueClick; GoClick] = Some st
  /\ In "History" subjects /\ In "Hard" levels.
Proof.
  intros st.
  assert (H : run initial
                [GetStartedClick; LevelClick "Easy"; SubjectClick "History";
                 LevelClick "Hard"; ContinueClick; GoClick] = Some st)
    by reflexivity.
  split; [exact H|].
  destruct (quiz_screen_needs_selection _ _ H) as [_ Hq].
  destruct (Hq "History" "Hard") as (H1 & H2 & _); [left; reflexivity|].
  split; assumption.
Defined.

(** X11. Whatever clicks lead the page to the quiz, if the generation
    stage then fails, the component loads all five questions of the
    selected subject's own entry of the mock-data table, each satisfying the
    Question invariant (the five of the fixed list with route.ts): every
    subject the page offers has its entry. *)
Theorem page_selection_offline_quiz
  (JSON_parse : string -> option JSValue) (evs : list Event) (st : State)
  (subject level : string) (gemini : Outcome) :
  run initial evs = Some st ->
  render st = Some (QuizScreen subject level) ->
  gemini_stage JSON_parse gemini = None ->
  let body := Client.request_body subject level in
  exists entries,
    MockRoute.mockData_get subject = MockRoute.Own entries
    /\ List.length entries = 5%nat
    /\ Forall Question_ok entries
    /\ Client.fetchQuestions
         (Client.Json (MockRoute.POST JSON_parse body gemini))
       = Client.Loaded (map question_to_js entries)
    /\ Client.fetchQuestions (Client.Json (Route.POST JSON_parse body gemini))
       = Client.Loaded (map question_to_js Route.fallbackQuestions).
Proof.
  intros H Hr Hg body. unfold body, Client.request_body.
  pose proof (page_invariant_run _ _ _ page_invariant_initial H) as (_ & _ & Hv).
  assert (Hsel : In subject subjects /\ In level levels).
  { unfold render, selection_made in *.
    destruct Hv as [Hv|[Hv|[[Hv|Hv] [H1 H2]]]]; rewrite Hv in Hr;
      simpl in Hr; try discriminate.
    injection Hr as <- <-. auto. }
  destruct Hsel as [Hsub Hlev].
  assert (Hl : level <> "").
  { intros ->. simpl in Hlev.
    repeat (destruct Hlev as [Hlev|Hlev]; [discriminate|]). exact Hlev. }
  assert (Hs : subject <> "").
  { intros ->. simpl in Hsub.
    repeat (destruct Hsub as [Hsub|Hsub]; [discriminate|]). exact Hsub. }
  rewrite route_valid, mock_valid by assumption. rewrite Hg.
  simpl in Hsub.
  repeat (destruct Hsub as [<-|Hsub];
          [eexists; split; [reflexivity|];
           split; [reflexivity|];
           split; [apply table_ok; vm_compute; reflexivity|];
           split; reflexivity|]).
  contradiction.
Qed.

Lemma page_selection_offline_quiz_witness :
  Client.fetchQuestions
    (Client.Json (MockRoute.POST Json.parse
                    (Client.request_body "History" "Hard")
                    (Returned (Some "not json"))))
  = Client.Loaded (map question_to_js history_table).
Proof.
  destruct (page_selection_offline_quiz Json.parse
              [GetStartedClick; LevelClick "Easy"; SubjectClick "History";
               LevelClick "Hard"; ContinueClick; GoClick]
              {| displayView := "quiz";
                 selectedSubject := "History";
                 selectedLevel := "Hard" |}
              "History" "Hard" (Returned (Some "not json"))
              eq_refl eq_refl eq_refl)
    as (entries & M & _ & _ & Hload & _).
  assert (E : entries = history_table).
  { assert (M' : MockRoute.mockData_get "History"
                 = MockRoute.Own history_table) by reflexivity.
    rewrite M in M'. injection M' as ->. reflexivity. }
  rewrite <- E. exact Hload.
Defined.

End HomeProofs.

(** ** Runs of the quiz controller *)

Module QuizRuns.
Import Quiz.

Lemma index_in_range {A : Type} (l : list A) (i : Z) :
  0 <= i < Z.of_nat (List.length l) -> exists x, index l i = Some x.
Proof.
  intros H. unfold index.
  destruct (i <? 0) eqn:E; [apply Z.ltb_lt in E; lia|].
  destruct (nth_error l (Z.to_nat i)) as [x|] eqn:N; [eauto|].
  apply nth_error_None in N. lia.
Qed.

Lemma questions_nonempty (quizQuestions : list Question) :
  quizQuestions <> [] -> (Z.of_nat (List.length quizQuestions) =? 0) = false.
Proof.
  intros H. apply Z.eqb_neq. destruct quizQuestions; [contradiction|].
  simpl List.length. lia.
Qed.

(** X12. For a quiz over typed question records (a question, its options
    and its correct answer), in every state that the component renders,
    that is the state after an event and its effects and the state right
    after the interval's update, before the time-out effect: the render is
    defined, the result view once finished, else the question view of a
    question that exists in the list, numbered from 1 to n.  The elapsed
    time shown is between 0 and TIME_LIMIT + 1: at most TIME_LIMIT once
    the effects have run, and TIME_LIMIT + 1 in the render between the
    update and the effect when the limit is passed. *)
Theorem question_view_always_defined (quizQuestions : list Question)
  (evs : list Event) (st shown : State) :
  quizQuestions <> [] ->
  run quizQuestions (initial quizQuestions) evs = Some st ->
  rendered st shown ->
  let n := Z.of_nat (List.length quizQuestions) in
  (quizFinished shown = true
   /\ Client.render false None quizQuestions shown
      = Some (Client.ResultView (results shown) n))
  \/ (quizFinished shown = false
      /\ exists q,
          index quizQuestions (activeQuestion shown) = Some q
          /\ Client.render false None quizQuestions shown
             = Some (Client.QuestionView (activeQuestion shown + 1) n q
                       (timePassed shown)
                       (negb (selectedAnswerIndex shown =? -1)))
          /\ 1 <= activeQuestion shown + 1 <= n
          /\ 0 <= timePassed shown <= TIME_LIMIT + 1
          /\ (shown = st -> timePassed shown <= TIME_LIMIT)
          /\ (shown = tickUpdate st -> timePassed st = TIME_LIMIT ->
              timePassed shown = TIME_LIMIT + 1)).
Proof.
  intros Hne H Hshown n.
  destruct (QuizProofs.reachable_Inv _ _ _ Hne H) as (Ha & Ht & _ & _).
  pose proof (questions_nonempty _ Hne) as Hlen.
  assert (Hsame : quizFinished shown = quizFinished st
                  /\ activeQuestion shown = activeQuestion st
                  /\ selectedAnswerIndex shown = selectedAnswerIndex st
                  /\ 0 <= timePassed shown <= TIME_LIMIT + 1
                  /\ (shown = st -> timePassed shown <= TIME_LIMIT)
                  /\ (shown = tickUpdate st -> timePassed st = TIME_LIMIT ->
                      timePassed shown = TIME_LIMIT + 1)).
  { destruct st as [tp aq sel fin ic r tr].
    unfold rendered, tickUpdate in *. simpl in *. unfold TIME_LIMIT in *.
    destruct Hshown as [->|[_ ->]]; simpl.
    - split; [reflexivity|]. split; [reflexivity|]. split; [reflexivity|].
      split; [lia|]. split; [intros _; lia|].
      intros E L. apply (f_equal timePassed) in E. simpl in E.
      destruct (tp >? 60) eqn:G; [apply Z.gtb_lt in G|]; lia.
    - split; [reflexivity|]. split; [reflexivity|]. split; [reflexivity|].
      destruct (tp >? 60) eqn:G.
      + apply Z.gtb_lt in G. lia.
      + split; [lia|]. split; [|intros _ L; lia].
        intros E. apply (f_equal timePassed) in E. simpl in E.
        lia. }
  destruct Hsame as (Ef & Ea & Es & Hb & Hst & Htick).
  unfold Client.render. simpl. rewrite Hlen, Ef, Ea, Es.
  destruct (quizFinished st) eqn:F.
  - left. split; reflexivity.
  - right. split; [reflexivity|].
    destruct (index_in_range quizQuestions (activeQuestion st) Ha) as [q Hq].
    exists q. rewrite Hq.
    split; [reflexivity|]. split; [reflexivity|]. split; [lia|].
    split; [exact Hb|]. split; [exact Hst|exact Htick].
Qed.

Lemma question_view_always_defined_witness :
  let qs := firstn 2 Route.fallbackQuestions in
  let st :=
    {| timePassed := 60;
       activeQuestion := 0;
       selectedAnswerIndex := -1;
       quizFinished := false;
       isCorrectAnswer := false;
       results := mkResults 0 0 0;
       timerRunning := true |} in
  run qs (initial qs) (repeat Tick 60) = Some st
  /\ rendered st (tickUpdate st)
  /\ exists q,
      Client.render false None qs (tickUpdate st)
      = Some (Client.QuestionView 1 2 q 61 false).
Proof.
  intros qs st.
  assert (R : run qs (initial qs) (repeat Tick 60) = Some st)
    by (vm_compute; reflexivity).
  assert (S : rendered st (tickUpdate st))
    by (right; split; reflexivity).
  split; [exact R|]. split; [exact S|].
  destruct (question_view_always_defined qs (repeat Tick 60) st
              (tickUpdate st) ltac:(discriminate) R S)
    as [[F _]|(_ & q & _ & Rn & _)]; [discriminate|].
  exists q. exact Rn.
Defined.

Lemma timer_matches_step (quizQuestions : list Question) (st st' : State)
  (ev : Event) :
  timer_matches st -> step quizQuestions st ev = Some st' ->
  timer_matches st'.
Proof.
  destruct st as [tp aq sel fin ic [c w s] tr].
  unfold timer_matches, step. simpl. intros HT H.
  destruct (fin || _) eqn:G; [discriminate|].
  apply orb_false_iff in G. destruct G as [-> G]. simpl in HT.
  destruct ev as [|answerIndex|].
  - destruct tr; [|discriminate]. injection H as <-.
    unfold timeEffect, handleNextQuestion. simpl. rewrite G.
    repeat match goal with
      | |- context [if ?b then _ else _] => destruct b eqn:?; simpl
      end; auto.
  - destruct (option_clickable quizQuestions _ answerIndex) eqn:C;
      [|discriminate].
    unfold option_clickable in C. unfold handleSelectAnswer in H.
    simpl in *.
    destruct (index quizQuestions aq) as [q|]; [|discriminate].
    apply andb_true_iff in C. destruct C as [_ C].
    apply andb_true_iff in C. destruct C as [C _].
    apply Z.leb_le in C.
    assert (E : (answerIndex =? -1) = false) by (apply Z.eqb_neq; lia).
    destruct (match index (options q) answerIndex with
              | Some a => (correctAnswer q =? a)%string
              | None => false
              end); injection H as <-; simpl; rewrite E; reflexivity.
  - destruct (sel =? -1); [discriminate|]. injection H as <-.
    unfold handleNextQuestion. simpl.
    destruct (aq + 1 >=? _); reflexivity.
Qed.

Lemma timer_matches_run (quizQuestions : list Question) (evs : list Event)
  (st st' : State) :
  timer_matches st -> run quizQuestions st evs = Some st' ->
  timer_matches st'.
Proof.
  revert st. induction evs as [|ev evs IH]; simpl; intros st HI H.
  - injection H as <-. exact HI.
  - destruct (step quizQuestions st ev) as [st1|] eqn:E; [|discriminate].
    eapply IH; [|exact H]. eapply timer_matches_step; eauto.
Qed.

(** X13. In every state the controller reaches, the interval runs exactly
    while the quiz is unfinished and no option is selected.  A tick can
    happen only then, "Next Question" only when an option is selected, and
    nothing once the quiz is finished: an unfinished quiz always has one of
    the two ways forward. *)
Theorem timer_or_next_button (quizQuestions : list Question)
  (evs : list Event) (st : State) :
  quizQuestions <> [] ->
  run quizQuestions (initial quizQuestions) evs = Some st ->
  (timerRunning st = true
   <-> quizFinished st = false /\ selectedAnswerIndex st = -1)
  /\ (step quizQuestions st Tick <> None
      <-> quizFinished st = false /\ selectedAnswerIndex st = -1)
  /\ (step quizQuestions st NextClick <> None
      <-> quizFinished st = false /\ selectedAnswerIndex st <> -1)
  /\ (quizFinished st = true -> forall ev, step quizQuestions st ev = None).
Proof.
  intros Hne H.
  pose proof (questions_nonempty _ Hne) as Hlen.
  assert (HT : timer_matches st).
  { eapply timer_matches_run; [|exact H].
    unfold timer_matches, initial. simpl. rewrite Hlen. reflexivity. }
  unfold timer_matches in HT. unfold step. rewrite Hlen, HT.
  destruct (quizFinished st); simpl.
  - repeat split; try (intros [? ?]); try intros ?;
      try discriminate; try contradiction; try congruence.
  - destruct (selectedAnswerIndex st =? -1) eqn:S;
      [apply Z.eqb_eq in S|apply Z.eqb_neq in S];
      repeat split; try (intros [? ?]); try intros ?;
      try discriminate; try contradiction; try congruence.
Qed.

Lemma timer_or_next_button_witness :
  let qs := firstn 2 Route.fallbackQuestions in
  exists st,
    run qs (initial qs) [Tick; SelectAnswer 0] = Some st
    /\ step qs st Tick = None
    /\ step qs st NextClick <> None.
Proof.
  intros qs.
  assert (H : run qs (initial qs) [Tick; SelectAnswer 0]
              = Some {| timePassed := 1;
                        activeQuestion := 0;
                        selectedAnswerIndex := 0;
                        quizFinished := false;
                        isCorrectAnswer := true;
                        results := mkResults 1 0 1;
                        timerRunning := false |}) by reflexivity.
  eexists. split; [exact H|].
  destruct (timer_or_next_button qs _ _ ltac:(discriminate) H)
    as (_ & _ & [_ HN] & _).
  split; [reflexivity|]. apply HN. split; [reflexivity|discriminate].
Defined.

Lemma run_app (quizQuestions : list Question) (evs1 evs2 : list Event)
  (st : State) :
  run quizQuestions st (evs1 ++ evs2)
  = match run quizQuestions st evs1 with
    | Some st1 => run quizQuestions st1 evs2
    | None => None
    end.
Proof.
  revert st. induction evs1 as [|ev evs1 IH]; intros st; [reflexivity|].
  simpl. destruct (step quizQuestions st ev); [apply IH|reflexivity].
Qed.

(** A tick on a question without selection, field by field. *)
Lemma tick_without_selection (quizQuestions : list Question)
  (tp aq c w s : Z) (ic : bool) :
  (Z.of_nat (List.length quizQuestions) =? 0) = false ->
  (tp >? 60) = false ->
  step quizQuestions
    (mkState tp aq (-1) false ic (mkResults c w s) true) Tick
  = Some
      (if tp + 1 >? 60 then
         if aq + 1 >=? Z.of_nat (List.length quizQuestions)
         then mkState 0 aq (-1) true ic (mkResults c (w + 1) (s + 60)) false
         else mkState 0 (aq + 1) (-1) false ic
                (mkResults c (w + 1) (s + 60)) true
       else mkState (tp + 1) aq (-1) false ic (mkResults c w s) true).
Proof.
  intros Hlen E1.
  unfold step, timeEffect, handleNextQuestion, tickUpdate, TIME_LIMIT.
  simpl. rewrite !Hlen, !E1.
  destruct (tp + 1 >? 60); [|reflexivity].
  simpl. destruct (aq + 1 >=? _); reflexivity.
Qed.

Lemma unattended_tick (quizQuestions : list Question) (m : Z) :
  let n := Z.of_nat (List.length quizQuestions) in
  0 <= m < 61 * n ->
  step quizQuestions (unattended m) Tick
  = Some (if m + 1 <? 61 * n then unattended (m + 1) else all_timed_out n).
Proof.
  intros n Hm.
  assert (Hlen : (n =? 0) = false) by (apply Z.eqb_neq; lia).
  assert (Hmod : 0 <= m mod 61 < 61) by (apply Z.mod_pos_bound; lia).
  assert (Hdiv : 0 <= m / 61 < n) by (Z.div_mod_to_equations; lia).
  assert (E1 : (m mod 61 >? 60) = false)
    by (rewrite Z.gtb_ltb; apply Z.ltb_ge; lia).
  unfold unattended at 1.
  rewrite (tick_without_selection quizQuestions _ _ _ _ _ _ Hlen E1).
  fold n. f_equal.
  destruct (m mod 61 + 1 >? 60) eqn:E2; rewrite Z.gtb_ltb in E2;
    [apply Z.ltb_lt in E2|apply Z.ltb_ge in E2].
  - assert (Hq : (m + 1) / 61 = m / 61 + 1 /\ (m + 1) mod 61 = 0)
      by (Z.div_mod_to_equations; lia).
    destruct Hq as [Hq Hr].
    destruct (m / 61 + 1 >=? n) eqn:E3; rewrite Z.geb_leb in E3;
      [apply Z.leb_le in E3|apply Z.leb_gt in E3].
    + assert (E4 : (m + 1 <? 61 * n) = false)
        by (apply Z.ltb_ge; Z.div_mod_to_equations; lia).
      rewrite E4. unfold all_timed_out.
      f_equal; try lia. f_equal; lia.
    + assert (E4 : (m + 1 <? 61 * n) = true)
        by (apply Z.ltb_lt; Z.div_mod_to_equations; lia).
      rewrite E4. unfold unattended. rewrite Hq, Hr.
      f_equal. f_equal; lia.
  - assert (Hq : (m + 1) / 61 = m / 61 /\ (m + 1) mod 61 = m mod 61 + 1)
      by (Z.div_mod_to_equations; lia).
    destruct Hq as [Hq Hr].
    assert (E4 : (m + 1 <? 61 * n) = true)
      by (apply Z.ltb_lt; Z.div_mod_to_equations; lia).
    rewrite E4. unfold unattended. rewrite Hq, Hr. reflexivity.
Qed.

Lemma unattended_run (quizQuestions : list Question) (m : nat) :
  let n := Z.of_nat (List.length quizQuestions) in
  quizQuestions <> [] ->
  Z.of_nat m <= 61 * n ->
  run quizQuestions (initial quizQuestions) (repeat Tick m)
  = Some (if Z.of_nat m <? 61 * n then unattended (Z.of_nat m)
          else all_timed_out n).
Proof.
  intros n Hne. induction m as [|m IH]; intros Hm.
  - simpl repeat. simpl run.
    destruct (0 <? 61 * n) eqn:E; [|apply Z.ltb_ge in E;
      destruct quizQuestions; [contradiction|]; unfold n in E;
      simpl List.length in E; lia].
    unfold initial, unattended. simpl.
    destruct quizQuestions; [contradiction|]. reflexivity.
  - replace (repeat Tick (S m)) with (repeat Tick m ++ [Tick])%list
      by (symmetry; apply (repeat_cons m Tick)).
    rewrite run_app, IH by lia.
    destruct (Z.of_nat m <? 61 * n) eqn:E; [|apply Z.ltb_ge in E; lia].
    apply Z.ltb_lt in E. simpl run.
    rewrite unattended_tick by (fold n; lia). fold n.
    replace (Z.of_nat (S m)) with (Z.of_nat m + 1) by lia. reflexivity.
Qed.

(** X14. A quiz of n questions that nobody touches times out question by
    question: after [m] ticks ([m <= 61 n]) there are [m / 61] wrong
    answers, no correct one and [60 (m / 61)] seconds used, the quiz shows
    question [m / 61] at [m mod 61] seconds, and it is finished exactly at
    [m = 61 n].  Each question takes 61 ticks and is charged 60 seconds. *)
Theorem unattended_quiz_times_out (q : Question) (rest : list Question)
  (m : nat) :
  let quizQuestions := q :: rest in
  let n := Z.of_nat (List.length quizQuestions) in
  Z.of_nat m <= 61 * n ->
  exists st,
    run quizQuestions (initial quizQuestions) (repeat Tick m) = Some st
    /\ (quizFinished st = true <-> Z.of_nat m = 61 * n)
    /\ correctAnswers (results st) = 0
    /\ wrongAnswers (results st) = Z.of_nat m / 61
    /\ secondsUsed (results st) = 60 * (Z.of_nat m / 61)
    /\ (Z.of_nat m < 61 * n ->
        activeQuestion st = Z.of_nat m / 61
        /\ timePassed st = Z.of_nat m mod 61).
Proof.
  intros quizQuestions n Hm.
  assert (Hne : quizQuestions <> []) by discriminate.
  pose proof (unattended_run quizQuestions m Hne Hm) as H. fold n in H.
  assert (Hn : 0 < n) by (unfold n, quizQuestions; simpl List.length; lia).
  clearbody n.
  eexists. split; [exact H|].
  destruct (Z.of_nat m <? 61 * n) eqn:E.
  - apply Z.ltb_lt in E. unfold unattended.
    cbn [timePassed activeQuestion quizFinished results correctAnswers
         wrongAnswers secondsUsed].
    repeat split; try discriminate; try lia.
  - apply Z.ltb_ge in E. assert (Em : Z.of_nat m = 61 * n) by lia.
    unfold all_timed_out.
    cbn [timePassed activeQuestion quizFinished results correctAnswers
         wrongAnswers secondsUsed].
    rewrite Em.
    replace (61 * n) with (n * 61) by lia.
    rewrite Z.div_mul by lia.
    repeat split; try lia.
Qed.

Lemma unattended_quiz_times_out_witness :
  exists st,
    run (firstn 2 Route.fallbackQuestions)
      (initial (firstn 2 Route.fallbackQuestions)) (repeat Tick 122)
    = Some st
    /\ quizFinished st = true
    /\ wrongAnswers (results st) = 2
    /\ secondsUsed (results st) = 120.
Proof.
  destruct (unattended_quiz_times_out
              (mkQuestion "What is the chemical symbol for gold?"
                 ["Au"; "Ag"; "Fe"; "Cu"] "Au")
              [mkQuestion "Which planet is known as the Red Planet?"
                 ["Mars"; "Venus"; "Jupiter"; "Mercury"] "Mars"]
              122%nat)
    as (st & Hrun & Hfin & _ & Hw & Hs & _); [simpl; lia|].
  exists st. split; [exact Hrun|].
  split; [apply Hfin; reflexivity|]. split; [exact Hw|exact Hs].
Defined.

Lemma step_no_earlier (quizQuestions : list Question) (st st' : State)
  (ev : Event) :
  0 <= timePassed st ->
  step quizQuestions st ev = Some st' ->
  no_earlier st st'
  /\ activeQuestion st' <= activeQuestion st + 1
  /\ correctAnswers (results st') + wrongAnswers (results st')
     <= correctAnswers (results st) + wrongAnswers (results st) + 1.
Proof.
  destruct st as [tp aq sel fin ic [c w s] tr].
  unfold no_earlier, step. simpl. intros Ht H.
  destruct (fin || _) eqn:G; [discriminate|].
  apply orb_false_iff in G. destruct G as [-> G].
  destruct ev as [|answerIndex|].
  - destruct tr; [|discriminate]. injection H as <-.
    unfold timeEffect, handleNextQuestion, TIME_LIMIT. simpl. rewrite G.
    repeat match goal with
      | |- context [if ?b then _ else _] => destruct b eqn:?; simpl
      end; repeat split; try lia; try discriminate.
  - destruct (option_clickable quizQuestions _ answerIndex); [|discriminate].
    unfold handleSelectAnswer in H. simpl in H.
    destruct (index quizQuestions aq) as [q|]; [|discriminate].
    destruct (match index (options q) answerIndex with
              | Some a => (correctAnswer q =? a)%string
              | None => false
              end); injection H as <-; simpl;
      repeat split; try lia; try discriminate.
  - destruct (sel =? -1); [discriminate|]. injection H as <-.
    unfold handleNextQuestion. simpl.
    destruct (aq + 1 >=? _); simpl; repeat split; try lia; try discriminate.
Qed.

Lemma run_no_earlier (quizQuestions : list Question) (evs : list Event)
  (st st' : State) :
  Quiz.Inv quizQuestions st ->
  run quizQuestions st evs = Some st' ->
  no_earlier st st'
  /\ activeQuestion st' <= activeQuestion st + Z.of_nat (List.length evs).
Proof.
  revert st. induction evs as [|ev evs IH]; intros st HI H.
  - simpl in H. injection H as <-. unfold no_earlier. simpl.
    repeat split; try lia. auto.
  - simpl in H.
    destruct (step quizQuestions st ev) as [st1|] eqn:E; [|discriminate].
    pose proof (QuizProofs.Inv_step _ _ _ _ HI E) as HI1.
    destruct HI as (_ & Ht & _).
    destruct (step_no_earlier _ _ _ _ (proj1 Ht) E) as (N1 & A1 & _).
    destruct (IH _ HI1 H) as (N2 & A2).
    unfold no_earlier in *. simpl List.length.
    repeat split; try lia. intros F. apply N2, N1, F.
Qed.

(** X15. Along a session the question index never goes back and advances
    by at most one per event, the counts of correct and wrong answers and
    the seconds used never decrease, and a finished quiz does not change any
    more. *)
Theorem quiz_only_moves_forward (quizQuestions : list Question)
  (evs more : list Event) (st st' : State) :
  run quizQuestions (initial quizQuestions) evs = Some st ->
  run quizQuestions st more = Some st' ->
  activeQuestion st <= activeQuestion st'
  /\ activeQuestion st' <= activeQuestion st + Z.of_nat (List.length more)
  /\ correctAnswers (results st) <= correctAnswers (results st')
  /\ wrongAnswers (results st) <= wrongAnswers (results st')
  /\ secondsUsed (results st) <= secondsUsed (results st')
  /\ (quizFinished st = true -> st' = st).
Proof.
  intros H H'.
  assert (Hfin : quizFinished st = true -> st' = st).
  { intros F. destruct more as [|ev more]; simpl in H'.
    - injection H' as <-. reflexivity.
    - unfold step in H'. rewrite F in H'. discriminate. }
  destruct quizQuestions as [|q rest] eqn:Q.
  - apply QuizProofs.run_without_questions in H. subst st.
    destruct more as [|ev more]; simpl in H'; [|discriminate].
    injection H' as <-. simpl. repeat split; lia.
  - rewrite <- Q in *.
    assert (Hne : quizQuestions <> []) by (rewrite Q; discriminate).
    pose proof (QuizProofs.reachable_Inv _ _ _ Hne H) as HI.
    destruct (run_no_earlier _ _ _ _ HI H') as ((A & C & W & S & _) & B).
    repeat split; assumption.
Qed.

Lemma quiz_only_moves_forward_witness :
  let qs := firstn 2 Route.fallbackQuestions in
  exists st st',
    run qs (initial qs) [Tick; Tick; SelectAnswer 0] = Some st
    /\ run qs st [NextClick; Tick; SelectAnswer 3] = Some st'
    /\ activeQuestion st <= activeQuestion st'
    /\ secondsUsed (results st) <= secondsUsed (results st').
Proof.
  intros qs.
  assert (H : run qs (initial qs) [Tick; Tick; SelectAnswer 0]
              = Some {| timePassed := 2;
                        activeQuestion := 0;
                        selectedAnswerIndex := 0;
                        quizFinished := false;
                        isCorrectAnswer := true;
                        results := mkResults 1 0 2;
                        timerRunning := false |}) by reflexivity.
  assert (H' : run qs {| timePassed := 2;
                         activeQuestion := 0;
                         selectedAnswerIndex := 0;
                         quizFinished := false;
                         isCorrectAnswer := true;
                         results := mkResults 1 0 2;
                         timerRunning := false |}
                 [NextClick; Tick; SelectAnswer 3]
               = Some {| timePassed := 1;
                         activeQuestion := 1;
                         selectedAnswerIndex := 3;
                         quizFinished := false;
                         isCorrectAnswer := false;
                         results := mkResults 1 1 3;
                         timerRunning := false |}) by reflexivity.
  eexists _, _. split; [exact H|]. split; [exact H'|].
  destruct (quiz_only_moves_forward qs _ _ _ _ H H')
    as (A & _ & _ & _ & S & _).
  split; [exact A|exact S].
Defined.

Lemma index_app_here {A : Type} (done : list A) (x : A) (rest : list A) :
  index (done ++ x :: rest)%list (Z.of_nat (List.length done)) = Some x.
Proof.
  unfold index.
  destruct (Z.of_nat (List.length done) <? 0) eqn:E;
    [apply Z.ltb_lt in E; lia|].
  rewrite Nat2Z.id. rewrite nth_error_app2 by lia.
  rewrite Nat.sub_diag. reflexivity.
Qed.

Lemma answer_all_run (done remaining : list Question) :
  forall (choices : list Z) (st : State) (c w : Z),
    remaining <> [] ->
    Forall2 (fun q i => 0 <= i < Z.of_nat (List.length (options q)))
      remaining choices ->
    fresh_question st (Z.of_nat (List.length done)) c w ->
    exists st',
      run (done ++ remaining)%list st (answer_all choices) = Some st'
      /\ quizFinished st' = true
      /\ correctAnswers (results st') = c + score remaining choices
      /\ wrongAnswers (results st')
         = w + Z.of_nat (List.length remaining) - score remaining choices
      /\ secondsUsed (results st') = 0.
Proof.
  revert done. induction remaining as [|q rem IH]; intros done choices st c w Hne HF Hst;
    [contradiction|].
  inversion HF as [|q' i rem' choices' Hi HF' E1 E2]; subst.
  destruct st as [tp aq sel fin ic [c0 w0 s0] tr].
  destruct Hst as (Htp & Haq & Hsel & Hfin & Hc & Hw & Hs).
  simpl in Htp, Haq, Hsel, Hfin, Hc, Hw, Hs. subst.
  pose proof (index_app_here done q rem) as Hidx.
  assert (Hlen : (Z.of_nat (List.length (done ++ q :: rem)%list) =? 0) = false).
  { apply Z.eqb_neq. rewrite length_app. simpl List.length. lia. }
  assert (Hi1 : (i =? -1) = false) by (apply Z.eqb_neq; lia).
  change (answer_all (i :: choices'))
    with (SelectAnswer i :: NextClick :: answer_all choices').
  set (qs := (done ++ q :: rem)%list) in *.
  assert (Hsel :
    step qs {| timePassed := 0;
               activeQuestion := Z.of_nat (List.length done);
               selectedAnswerIndex := -1;
               quizFinished := false;
               isCorrectAnswer := ic;
               results := mkResults c w 0;
               timerRunning := tr |} (SelectAnswer i)
    = Some {| timePassed := 0;
              activeQuestion := Z.of_nat (List.length done);
              selectedAnswerIndex := i;
              quizFinished := false;
              isCorrectAnswer := chosen_correct q i;
              results :=
                if chosen_correct q i then mkResults (c + 1) w (0 + 0)
                else mkResults c (w + 1) (0 + 0);
              timerRunning := false |}).
  { unfold step, option_clickable, handleSelectAnswer. simpl.
    rewrite Hlen, Hidx. simpl.
    destruct Hi as [Hi0 Hi4].
    apply Z.leb_le in Hi0. apply Z.ltb_lt in Hi4. rewrite Hi0, Hi4. simpl.
    unfold chosen_correct.
    destruct (match index (options q) i with
              | Some a => (correctAnswer q =? a)%string
              | None => false
              end); reflexivity. }
  simpl run. rewrite Hsel.
  unfold step at 1. simpl. rewrite Hlen, Hi1.
  unfold handleNextQuestion. simpl.
  destruct (Z.of_nat (List.length done) + 1 >=? Z.of_nat (List.length qs))
    eqn:E; rewrite Z.geb_leb in E.
  - apply Z.leb_le in E. unfold qs in E. rewrite length_app in E.
    simpl List.length in E.
    assert (rem = []) by (destruct rem; [reflexivity|simpl in E; lia]).
    subst rem. inversion HF'; subst. simpl.
    eexists. split; [reflexivity|]. simpl.
    destruct (chosen_correct q i); simpl; repeat split; lia.
  - apply Z.leb_gt in E.
    assert (Hrem : rem <> []).
    { intros ->. unfold qs in E. rewrite length_app in E.
      simpl List.length in E. lia. }
    assert (Hq : qs = ((done ++ [q]) ++ rem)%list).
    { unfold qs. rewrite <- app_assoc. reflexivity. }
    rewrite Hq.
    destruct (IH (done ++ [q])%list choices'
                {| timePassed := 0;
                   activeQuestion := Z.of_nat (List.length done) + 1;
                   selectedAnswerIndex := -1;
                   quizFinished := false;
                   isCorrectAnswer := chosen_correct q i;
                   results :=
                     if chosen_correct q i then mkResults (c + 1) w (0 + 0)
                     else mkResults c (w + 1) (0 + 0);
                   timerRunning := true |}
                (if chosen_correct q i then c + 1 else c)
                (if chosen_correct q i then w else w + 1) Hrem HF')
      as (st' & Hrun & Hfin' & Hc' & Hw' & Hs').
    { unfold fresh_question. simpl. rewrite length_app. simpl List.length.
      destruct (chosen_correct q i); simpl; repeat split; lia. }
    exists st'. split; [exact Hrun|]. split; [exact Hfin'|].
    simpl score. simpl List.length.
    destruct (chosen_correct q i); repeat split; lia.
Qed.

(** X16. A session in which every question is answered at once (a click on
    a shown option, then "Next Question") ends finished with as many correct
    answers as questions whose chosen option text equals the correct answer,
    the others wrong, and 0 seconds used. *)
Theorem answered_quiz_score (quizQuestions : list Question)
  (choices : list Z) :
  quizQuestions <> [] ->
  Forall2 (fun q i => 0 <= i < Z.of_nat (List.length (options q)))
    quizQuestions choices ->
  exists st,
    run quizQuestions (initial quizQuestions) (answer_all choices) = Some st
    /\ quizFinished st = true
    /\ correctAnswers (results st) = score quizQuestions choices
    /\ wrongAnswers (results st)
       = Z.of_nat (List.length quizQuestions) - score quizQuestions choices
    /\ secondsUsed (results st) = 0.
Proof.
  intros Hne HF.
  destruct (answer_all_run [] quizQuestions choices (initial quizQuestions)
              0 0 Hne HF) as (st & Hrun & Hfin & Hc & Hw & Hs).
  { unfold fresh_question, initial. simpl. repeat split. }
  exists st. simpl in Hrun. repeat split; try assumption; lia.
Qed.

Lemma answered_quiz_score_witness :
  exists st,
    run (firstn 3 Route.fallbackQuestions)
      (initial (firstn 3 Route.fallbackQuestions)) (answer_all [0; 2; 0])
    = Some st
    /\ correctAnswers (results st) = 2
    /\ wrongAnswers (results st) = 1.
Proof.
  destruct (answered_quiz_score (firstn 3 Route.fallbackQuestions) [0; 2; 0])
    as (st & Hrun & _ & Hc & Hw & _).
  - discriminate.
  - repeat constructor; simpl; lia.
  - exists st. split; [exact Hrun|]. split; [exact Hc|exact Hw].
Defined.

Lemma one_correct_choice (q : Question) :
  Question_ok q ->
  exists i, 0 <= i < 4 /\ forall j, chosen_correct q j = true <-> j = i.
Proof.
  intros (Hlen & Hnd & Hcount).
  assert (Hin : In (correctAnswer q) (options q)).
  { apply (count_occ_In string_dec). lia. }
  apply In_nth_error in Hin. destruct Hin as [k Hk].
  assert (Hk4 : (k < 4)%nat).
  { rewrite <- Hlen. apply nth_error_Some. congruence. }
  exists (Z.of_nat k). split; [lia|].
  intros j. unfold chosen_correct, index. split.
  - destruct (j <? 0) eqn:E; [discriminate|]. apply Z.ltb_ge in E.
    destruct (nth_error (options q) (Z.to_nat j)) as [a|] eqn:N;
      [|discriminate].
    intros H. apply String.eqb_eq in H. subst a.
    rewrite NoDup_nth_error in Hnd.
    assert (k = Z.to_nat j).
    { apply Hnd; [rewrite Hlen; exact Hk4|congruence]. }
    lia.
  - intros ->.
    destruct (Z.of_nat k <? 0) eqn:E; [apply Z.ltb_lt in E; lia|].
    rewrite Nat2Z.id, Hk. apply String.eqb_refl.
Qed.

(** X17. On a question that satisfies the Question invariant exactly one of
    the four options scores: a click on it adds one correct answer, a click
    on any other adds one wrong answer; either way the elapsed time is added
    to the seconds used and the interval is cleared. *)
Theorem exactly_one_option_scores (quizQuestions : list Question)
  (st : State) (q : Question) :
  index quizQuestions (activeQuestion st) = Some q ->
  Question_ok q ->
  quizFinished st = false ->
  selectedAnswerIndex st = -1 ->
  exists i,
    0 <= i < 4
    /\ forall j,
        0 <= j < 4 ->
        exists st',
          step quizQuestions st (SelectAnswer j) = Some st'
          /\ (isCorrectAnswer st' = true <-> j = i)
          /\ correctAnswers (results st')
             = correctAnswers (results st) + (if j =? i then 1 else 0)
          /\ wrongAnswers (results st')
             = wrongAnswers (results st) + (if j =? i then 0 else 1)
          /\ secondsUsed (results st')
             = secondsUsed (results st) + timePassed st
          /\ timerRunning st' = false.
Proof.
  intros Hq Hok Hfin Hsel.
  destruct (one_correct_choice q Hok) as (i & Hi & Hunique).
  exists i. split; [exact Hi|]. intros j Hj.
  assert (Hlen : (Z.of_nat (List.length quizQuestions) =? 0) = false).
  { apply Z.eqb_neq. intros E.
    destruct quizQuestions; [|simpl List.length in E; lia].
    unfold index in Hq. destruct (activeQuestion st <? 0); [discriminate|].
    destruct (Z.to_nat (activeQuestion st)); discriminate. }
  destruct Hok as (H4 & _).
  unfold step, option_clickable, handleSelectAnswer.
  rewrite Hfin, Hlen, Hsel, Hq, H4. simpl orb. cbv iota.
  replace (-1 =? -1) with true by reflexivity.
  assert (B1 : (0 <=? j) = true) by (apply Z.leb_le; lia).
  assert (B2 : (j <? Z.of_nat 4) = true) by (apply Z.ltb_lt; lia).
  rewrite B1, B2. simpl andb. cbv iota.
  specialize (Hunique j). unfold chosen_correct in Hunique.
  destruct (match index (options q) j with
            | Some a => (correctAnswer q =? a)%string
            | None => false
            end) eqn:C.
  - assert (E : j = i) by (apply Hunique; reflexivity).
    eexists. split; [reflexivity|]. simpl.
    subst j. rewrite Z.eqb_refl. repeat split; try lia.
  - assert (E : j <> i) by (intros E; apply Hunique in E; discriminate).
    eexists. split; [reflexivity|]. simpl.
    apply Z.eqb_neq in E. rewrite E. apply Z.eqb_neq in E.
    repeat split; try lia; try discriminate; try (intros; contradiction).
Qed.

Lemma exactly_one_option_scores_witness :
  let qs := firstn 2 Route.fallbackQuestions in
  exists i,
    0 <= i < 4
    /\ forall j,
        0 <= j < 4 ->
        exists st',
          step qs (initial qs) (SelectAnswer j) = Some st'
          /\ (isCorrectAnswer st' = true <-> j = i).
Proof.
  intros qs.
  destruct (exactly_one_option_scores qs (initial qs)
              (mkQuestion "What is the chemical symbol for gold?"
                 ["Au"; "Ag"; "Fe"; "Cu"] "Au"))
    as (i & Hi & H).
  - reflexivity.
  - apply Question_okb_sound. reflexivity.
  - reflexivity.
  - reflexivity.
  - exists i. split; [exact Hi|]. intros j Hj.
    destruct (H j Hj) as (st' & Hstep & Hc & _).
    exists st'. split; assumption.
Defined.

End QuizRuns.
